(** * ipv4 endpoints: Conn, PacketConn and RawConn (src/ipv4/endpoint.go)

    A shallow embedding of the endpoint facades of package ipv4.  Calls
    that leave the package (methods of the wrapped net connection, the
    descriptor lookup, the socket-option primitives) are events of a small
    free monad, so that "which OS calls does this method make, in which
    order, with which arguments" is a property of the embedded program and
    can be observed by running it against any implementation of the OS. *)

From Stdlib Require Import ZArith List String Lia.
Import ListNotations.
Open Scope Z_scope.
Open Scope string_scope.

Set Implicit Arguments.

(** ** Go values *)

(** A Go [error]: [nil] or an error value. *)
Inductive errval : Type :=
| Errno (n : Z)
| ErrString (s : string).

Definition error : Type := option errval.
Definition nil_error : error := None.

(** [syscall.EINVAL] *)
Definition EINVAL : error := Some (Errno 22).

(** [time.Time], opaque to this package. *)
Definition time : Type := Z.

(** A pointer to an OS connection object: [None] is the nil pointer. *)
Definition ptr : Type := option nat.

(** The dynamic type stored in a [net.Conn] or [net.PacketConn] interface
    value: one of package net's connection types, or a type defined
    elsewhere, described by the interfaces its method set satisfies. *)
Inductive concrete : Type :=
| TCPConnPtr
| UDPConnPtr
| IPConnPtr
| UnixConnPtr
| UserType (hasConn hasPacketConn : bool).

Definition implements_Conn (t : concrete) : bool :=
  match t with
  | UserType hc _ => hc
  | _ => true
  end.

Definition implements_PacketConn (t : concrete) : bool :=
  match t with
  | TCPConnPtr => false
  | UserType _ hp => hp
  | _ => true
  end.

(** A non-nil interface value: dynamic type and the pointer it holds.
    The pointer may itself be nil (a typed nil inside a non-nil interface). *)
Record dyn : Type := mkdyn { dtype : concrete; dval : ptr }.

(** An interface value; [None] is the nil interface. *)
Definition iface : Type := option dyn.

Definition net_Conn : Type := iface.
Definition net_PacketConn : Type := iface.

(** Values the Go type checker admits at each interface type. *)
Definition is_net_Conn (c : iface) : bool :=
  match c with
  | None => true
  | Some d => implements_Conn (dtype d)
  end.

Definition is_net_PacketConn (c : iface) : bool :=
  match c with
  | None => true
  | Some d => implements_PacketConn (dtype d)
  end.

(** [ControlFlags] is declared outside endpoint.go; a set of bit flags. *)
Definition ControlFlags : Type := Z.

(** ** Programs over the OS collaborators *)

(** Calls that leave endpoint.go.  The first four are methods of the
    wrapped connection (package net).  [sysfd_payloadHandler] and
    [sysfd_packetHandler] are the descriptor lookups [payloadHandler.sysfd]
    and [packetHandler.sysfd], applied to the handler's connection
    reference, and [setIPv4HeaderPrepend] is the header-prepend primitive:
    the three are declared outside endpoint.go and are parameters here, what
    they answer being up to the implementation of the OS.
    [setsockopt_control] is the OS option update that [setControlMessage]
    requests. *)
Inductive osE : Type -> Type :=
| Conn_SetDeadline (c : dyn) (t : time) : osE error
| Conn_SetReadDeadline (c : dyn) (t : time) : osE error
| Conn_SetWriteDeadline (c : dyn) (t : time) : osE error
| Conn_Close (c : dyn) : osE error
| sysfd_payloadHandler (c : net_PacketConn) : osE (Z * error)
| sysfd_packetHandler (c : ptr) : osE (Z * error)
| setsockopt_control (fd : Z) (cf : ControlFlags) (on : bool) : osE error
| setIPv4HeaderPrepend (fd : Z) (on : bool) : osE error.

(** Run-time panics raised inside endpoint.go. *)
Inductive panic : Type :=
| NilDereference
| InterfaceConversion.

Inductive prog (R : Type) : Type :=
| Ret (r : R)
| Panic (p : panic)
| Vis (X : Type) (e : osE X) (k : X -> prog R).

Arguments Panic {R} p.
Arguments Vis {R X} e k.

Fixpoint bind {A B : Type} (m : prog A) (f : A -> prog B) : prog B :=
  match m with
  | Ret a => f a
  | Panic p => Panic p
  | Vis e k => Vis e (fun x => bind (k x) f)
  end.

Definition trigger {X : Type} (e : osE X) : prog X := Vis e (fun x => Ret x).

Declare Scope prog_scope.
Delimit Scope prog_scope with prog.
Notation "x <- m ;; k" := (bind m (fun x => k))
  (at level 61, m at next level, right associativity) : prog_scope.
Open Scope prog_scope.

(** *** Running a program against an implementation of the OS *)

(** An implementation of the collaborators over a world [W]. *)
Definition handler (W : Type) : Type := forall X : Type, osE X -> W -> X * W.

(** A call that was made, with its arguments. *)
Inductive oscall : Type :=
| Call (X : Type) (e : osE X).

Arguments Call {X} e.

Inductive outcome (R : Type) : Type :=
| Returned (r : R)
| Panicked (p : panic).

Arguments Panicked {R} p.

Record final (W R : Type) : Type := mkfinal {
  result : outcome R;
  world : W;
  calls : list oscall
}.

Fixpoint run {W R : Type} (h : handler W) (m : prog R) (w : W) : final W R :=
  match m with
  | Ret r => mkfinal (Returned r) w []
  | Panic p => mkfinal (Panicked p) w []
  | Vis e k =>
      let (x, w1) := h _ e w in
      let f := run h (k x) w1 in
      mkfinal (result f) (world f) (Call e :: calls f)
  end.

(** ** The option mixins *)

Record genericOpt : Type := mk_genericOpt { genericOpt_c : net_Conn }.

(** [func (c *genericOpt) ok() bool { return c != nil && c.c != nil }] *)
Definition genericOpt_ok (c : option genericOpt) : bool :=
  match c with
  | None => false
  | Some g => match genericOpt_c g with None => false | Some _ => true end
  end.

Record dgramOpt : Type := mk_dgramOpt { dgramOpt_c : net_PacketConn }.

(** [func (c *dgramOpt) ok() bool { return c != nil && c.c != nil }] *)
Definition dgramOpt_ok (c : option dgramOpt) : bool :=
  match c with
  | None => false
  | Some g => match dgramOpt_c g with None => false | Some _ => true end
  end.

(** Modelled from the spec: the declaration of [rawOpt] is not in
    endpoint.go.  It is the handler-local record of which control-message
    classes are currently requested. *)
Record rawOpt : Type := mk_rawOpt { cflags : ControlFlags }.

Definition rawOpt_zero : rawOpt := mk_rawOpt 0.

(** Modelled from the spec: the declaration of [payloadHandler] is not in
    endpoint.go; the fields are the ones endpoint.go uses, a packet
    connection [c] and an embedded [rawOpt]. *)
Record payloadHandler : Type := mk_payloadHandler {
  payloadHandler_c : net_PacketConn;
  payloadHandler_rawOpt : rawOpt
}.

(** Modelled from the spec: [payloadHandler.ok] is not in endpoint.go.
    It returns true iff the handler itself is a valid reference and the
    wrapped connection reference is non-null. *)
Definition payloadHandler_ok (c : option payloadHandler) : bool :=
  match c with
  | None => false
  | Some h => match payloadHandler_c h with None => false | Some _ => true end
  end.

(** Modelled from the spec: the declaration of [packetHandler] is not in
    endpoint.go; the fields are the ones endpoint.go uses, a [*net.IPConn]
    [c] and an embedded [rawOpt]. *)
Record packetHandler : Type := mk_packetHandler {
  packetHandler_c : ptr;
  packetHandler_rawOpt : rawOpt
}.

(** Modelled from the spec: [packetHandler.ok] is not in endpoint.go.
    It returns true iff the handler itself is a valid reference and the
    wrapped connection reference is non-null. *)
Definition packetHandler_ok (c : option packetHandler) : bool :=
  match c with
  | None => false
  | Some h => match packetHandler_c h with None => false | Some _ => true end
  end.

(** The [*net.IPConn] held by a packet handler, as the receiver of a
    statically dispatched method call. *)
Definition IPConn_recv (p : ptr) : dyn := mkdyn IPConnPtr p.

(** Modelled from the spec: how a successful update is recorded is not in
    endpoint.go.  The requested classes are added to the recorded set when
    [on] is true and removed from it otherwise. *)
Definition rawOpt_update (opt : rawOpt) (cf : ControlFlags) (on : bool) : rawOpt :=
  if on then mk_rawOpt (Z.lor (cflags opt) cf)
  else mk_rawOpt (Z.ldiff (cflags opt) cf).

(** Modelled from the spec: [setControlMessage] is not in endpoint.go.
    Given a descriptor, the raw option state, a flag set and an on/off
    intent it asks the OS to apply or clear the options; the raw option
    state is updated as a side effect of success, and a failure leaves it
    unchanged and surfaces the OS error unmodified. *)
Definition setControlMessage (fd : Z) (opt : rawOpt) (cf : ControlFlags) (on : bool)
  : prog (rawOpt * error) :=
  err <- trigger (setsockopt_control fd cf on) ;;
  match err with
  | Some _ => Ret (opt, err)
  | None => Ret (rawOpt_update opt cf on, nil_error)
  end.

(** ** Type assertions and receivers *)

(** [c.(net.Conn)]: panics on a nil interface and on a dynamic type whose
    method set does not satisfy [net.Conn]. *)
Definition assert_net_Conn (c : iface) : prog net_Conn :=
  match c with
  | None => Panic InterfaceConversion
  | Some d => if implements_Conn (dtype d) then Ret (Some d) else Panic InterfaceConversion
  end.

(** [c.( *net.IPConn)]: panics unless the dynamic type is [*net.IPConn]. *)
Definition assert_IPConn (c : iface) : prog ptr :=
  match c with
  | None => Panic InterfaceConversion
  | Some d =>
      match dtype d with
      | IPConnPtr => Ret (dval d)
      | _ => Panic InterfaceConversion
      end
  end.

(** Selecting a field through a pointer receiver. *)
Definition deref {A : Type} (p : option A) : prog A :=
  match p with
  | None => Panic NilDereference
  | Some a => Ret a
  end.

(** A method call on an interface value: dynamic dispatch needs a non-nil
    interface. *)
Definition dispatch {X : Type} (c : iface) (m : dyn -> osE X) : prog X :=
  match c with
  | None => Panic NilDereference
  | Some d => trigger (m d)
  end.

(** ** The endpoint facades *)

(** Methods have pointer receivers.  A method takes the receiver pointer
    ([None] is a nil receiver) and returns the value the receiver points at
    after the call together with the returned [error]. *)

Record Conn : Type := mk_Conn { Conn_genericOpt : genericOpt }.

Definition NewConn (c : net_Conn) : prog (option Conn) :=
  Ret (Some (mk_Conn (mk_genericOpt c))).

Record PacketConn : Type := mk_PacketConn {
  PacketConn_genericOpt : genericOpt;
  PacketConn_dgramOpt : dgramOpt;
  PacketConn_payloadHandler : payloadHandler
}.

Definition PacketConn_with_rawOpt (c : PacketConn) (opt : rawOpt) : PacketConn :=
  mk_PacketConn (PacketConn_genericOpt c) (PacketConn_dgramOpt c)
    (mk_payloadHandler (payloadHandler_c (PacketConn_payloadHandler c)) opt).

Definition PacketConn_SetControlMessage (p : option PacketConn) (cf : ControlFlags) (on : bool)
  : prog (PacketConn * error) :=
  c <- deref p ;;
  if negb (payloadHandler_ok (Some (PacketConn_payloadHandler c))) then Ret (c, EINVAL)
  else
    r <- trigger (sysfd_payloadHandler (payloadHandler_c (PacketConn_payloadHandler c))) ;;
    let (fd, err) := r in
    match err with
    | Some _ => Ret (c, err)
    | None =>
        s <- setControlMessage fd (payloadHandler_rawOpt (PacketConn_payloadHandler c)) cf on ;;
        Ret (PacketConn_with_rawOpt c (fst s), snd s)
    end.

Definition PacketConn_SetDeadline (p : option PacketConn) (t : time)
  : prog (PacketConn * error) :=
  c <- deref p ;;
  if negb (payloadHandler_ok (Some (PacketConn_payloadHandler c))) then Ret (c, EINVAL)
  else
    err <- dispatch (payloadHandler_c (PacketConn_payloadHandler c))
             (fun d => Conn_SetDeadline d t) ;;
    Ret (c, err).

Definition PacketConn_SetReadDeadline (p : option PacketConn) (t : time)
  : prog (PacketConn * error) :=
  c <- deref p ;;
  if negb (payloadHandler_ok (Some (PacketConn_payloadHandler c))) then Ret (c, EINVAL)
  else
    err <- dispatch (payloadHandler_c (PacketConn_payloadHandler c))
             (fun d => Conn_SetReadDeadline d t) ;;
    Ret (c, err).

Definition PacketConn_SetWriteDeadline (p : option PacketConn) (t : time)
  : prog (PacketConn * error) :=
  c <- deref p ;;
  if negb (payloadHandler_ok (Some (PacketConn_payloadHandler c))) then Ret (c, EINVAL)
  else
    err <- dispatch (payloadHandler_c (PacketConn_payloadHandler c))
             (fun d => Conn_SetWriteDeadline d t) ;;
    Ret (c, err).

Definition PacketConn_Close (p : option PacketConn) : prog (PacketConn * error) :=
  c <- deref p ;;
  if negb (payloadHandler_ok (Some (PacketConn_payloadHandler c))) then Ret (c, EINVAL)
  else
    err <- dispatch (payloadHandler_c (PacketConn_payloadHandler c)) Conn_Close ;;
    Ret (c, err).

Definition NewPacketConn (c : net_PacketConn) : prog (option PacketConn) :=
  g <- assert_net_Conn c ;;
  Ret (Some (mk_PacketConn (mk_genericOpt g) (mk_dgramOpt c)
               (mk_payloadHandler c rawOpt_zero))).

Record RawConn : Type := mk_RawConn {
  RawConn_genericOpt : genericOpt;
  RawConn_dgramOpt : dgramOpt;
  RawConn_packetHandler : packetHandler
}.

Definition RawConn_with_rawOpt (c : RawConn) (opt : rawOpt) : RawConn :=
  mk_RawConn (RawConn_genericOpt c) (RawConn_dgramOpt c)
    (mk_packetHandler (packetHandler_c (RawConn_packetHandler c)) opt).

Definition RawConn_SetControlMessage (p : option RawConn) (cf : ControlFlags) (on : bool)
  : prog (RawConn * error) :=
  c <- deref p ;;
  if negb (packetHandler_ok (Some (RawConn_packetHandler c))) then Ret (c, EINVAL)
  else
    r <- trigger (sysfd_packetHandler (packetHandler_c (RawConn_packetHandler c))) ;;
    let (fd, err) := r in
    match err with
    | Some _ => Ret (c, err)
    | None =>
        s <- setControlMessage fd (packetHandler_rawOpt (RawConn_packetHandler c)) cf on ;;
        Ret (RawConn_with_rawOpt c (fst s), snd s)
    end.

Definition RawConn_SetDeadline (p : option RawConn) (t : time) : prog (RawConn * error) :=
  c <- deref p ;;
  if negb (packetHandler_ok (Some (RawConn_packetHandler c))) then Ret (c, EINVAL)
  else
    err <- trigger (Conn_SetDeadline (IPConn_recv (packetHandler_c (RawConn_packetHandler c))) t) ;;
    Ret (c, err).

Definition RawConn_SetReadDeadline (p : option RawConn) (t : time) : prog (RawConn * error) :=
  c <- deref p ;;
  if negb (packetHandler_ok (Some (RawConn_packetHandler c))) then Ret (c, EINVAL)
  else
    err <- trigger (Conn_SetReadDeadline (IPConn_recv (packetHandler_c (RawConn_packetHandler c))) t) ;;
    Ret (c, err).

Definition RawConn_SetWriteDeadline (p : option RawConn) (t : time) : prog (RawConn * error) :=
  c <- deref p ;;
  if negb (packetHandler_ok (Some (RawConn_packetHandler c))) then Ret (c, EINVAL)
  else
    err <- trigger (Conn_SetWriteDeadline (IPConn_recv (packetHandler_c (RawConn_packetHandler c))) t) ;;
    Ret (c, err).

Definition RawConn_Close (p : option RawConn) : prog (RawConn * error) :=
  c <- deref p ;;
  if negb (packetHandler_ok (Some (RawConn_packetHandler c))) then Ret (c, EINVAL)
  else
    err <- trigger (Conn_Close (IPConn_recv (packetHandler_c (RawConn_packetHandler c)))) ;;
    Ret (c, err).

Definition NewRawConn (c : net_PacketConn) : prog (option RawConn * error) :=
  g <- assert_net_Conn c ;;
  ip <- assert_IPConn c ;;
  let r := mk_RawConn (mk_genericOpt g) (mk_dgramOpt c) (mk_packetHandler ip rawOpt_zero) in
  x <- trigger (sysfd_packetHandler (packetHandler_c (RawConn_packetHandler r))) ;;
  let (fd, err) := x in
  match err with
  | Some _ => Ret (None, err)
  | None =>
      err <- trigger (setIPv4HeaderPrepend fd true) ;;
      match err with
      | Some _ => Ret (None, err)
      | None => Ret (Some r, nil_error)
      end
  end.

(** ** A reference implementation of the OS

    Connections are numbered; a connection is open until it is closed.
    The world records the closed connections, the control-message updates
    and header-prepend settings the OS accepted, and which descriptors the
    OS refuses option changes on. *)

Record mockOS : Type := mk_mockOS {
  closed : list nat;
  applied : list (Z * ControlFlags * bool);
  hdrincl : list (Z * bool);
  refuse_control : list Z;
  refuse_hdrincl : list Z
}.

Definition errClosing : error := Some (ErrString "use of closed network connection").
Definition errInvalidConn : error := Some (ErrString "invalid connection").
Definition EPERM : error := Some (Errno 1).
Definition ENOPROTOOPT : error := Some (Errno 92).

Definition is_closed (w : mockOS) (n : nat) : bool := existsb (Nat.eqb n) (closed w).

Definition mock_deadline (w : mockOS) (c : dyn) : error * mockOS :=
  match dval c with
  | None => (EINVAL, w)
  | Some n => if is_closed w n then (errClosing, w) else (nil_error, w)
  end.

Definition mock_close (w : mockOS) (c : dyn) : error * mockOS :=
  match dval c with
  | None => (EINVAL, w)
  | Some n =>
      if is_closed w n then (errClosing, w)
      else (nil_error,
            mk_mockOS (n :: closed w) (applied w) (hdrincl w)
              (refuse_control w) (refuse_hdrincl w))
  end.

Definition mock_sysfd (w : mockOS) (p : ptr) : (Z * error) * mockOS :=
  match p with
  | None => ((0, errInvalidConn), w)
  | Some n =>
      if is_closed w n then ((0, errClosing), w)
      else ((3 + Z.of_nat n, nil_error), w)
  end.

Definition mock_control (w : mockOS) (fd : Z) (cf : ControlFlags) (on : bool)
  : error * mockOS :=
  if existsb (Z.eqb fd) (refuse_control w) then (ENOPROTOOPT, w)
  else (nil_error,
        mk_mockOS (closed w) ((fd, cf, on) :: applied w) (hdrincl w)
          (refuse_control w) (refuse_hdrincl w)).

Definition mock_hdrincl (w : mockOS) (fd : Z) (on : bool) : error * mockOS :=
  if existsb (Z.eqb fd) (refuse_hdrincl w) then (EPERM, w)
  else (nil_error,
        mk_mockOS (closed w) (applied w) ((fd, on) :: hdrincl w)
          (refuse_control w) (refuse_hdrincl w)).

Definition mock : handler mockOS :=
  fun X e =>
    match e in osE T return mockOS -> T * mockOS with
    | Conn_SetDeadline c _ => fun w => mock_deadline w c
    | Conn_SetReadDeadline c _ => fun w => mock_deadline w c
    | Conn_SetWriteDeadline c _ => fun w => mock_deadline w c
    | Conn_Close c => fun w => mock_close w c
    | sysfd_payloadHandler c =>
        fun w => mock_sysfd w (match c with None => None | Some d => dval d end)
    | sysfd_packetHandler p => fun w => mock_sysfd w p
    | setsockopt_control fd cf on => fun w => mock_control w fd cf on
    | setIPv4HeaderPrepend fd on => fun w => mock_hdrincl w fd on
    end.

Arguments mock : clear implicits.

Definition fresh : mockOS := mk_mockOS [] [] [] [] [].

(** Connections used in examples. *)
Definition udp1 : net_PacketConn := Some (mkdyn UDPConnPtr (Some 1%nat)).
Definition ip2 : net_PacketConn := Some (mkdyn IPConnPtr (Some 2%nat)).
Definition packet_only : net_PacketConn := Some (mkdyn (UserType false true) (Some 7%nat)).

(** Endpoints used in examples: the zero values, and the values the
    constructors build over [udp1] and [ip2]. *)
Definition zero_PacketConn : PacketConn :=
  mk_PacketConn (mk_genericOpt None) (mk_dgramOpt None) (mk_payloadHandler None rawOpt_zero).
Definition zero_RawConn : RawConn :=
  mk_RawConn (mk_genericOpt None) (mk_dgramOpt None) (mk_packetHandler None rawOpt_zero).
Definition udp1_PacketConn : PacketConn :=
  mk_PacketConn (mk_genericOpt udp1) (mk_dgramOpt udp1) (mk_payloadHandler udp1 rawOpt_zero).
Definition ip2_RawConn : RawConn :=
  mk_RawConn (mk_genericOpt ip2) (mk_dgramOpt ip2)
    (mk_packetHandler (Some 2%nat) rawOpt_zero).

(** A PacketConn over connection 1 on which classes 2 and 4 are recorded. *)
Definition udp1_with_6 : PacketConn := PacketConn_with_rawOpt udp1_PacketConn (mk_rawOpt 6).

(** A PacketConn with the payload handler of [udp1_PacketConn] whose other
    two mixins hold other connections. *)
Definition udp1_mixed : PacketConn :=
  mk_PacketConn (mk_genericOpt ip2) (mk_dgramOpt None) (mk_payloadHandler udp1 rawOpt_zero).

(** The world of the reference OS after connection 1 was closed. *)
Definition closed1 : mockOS := mk_mockOS [1%nat] [] [] [] [].

(** The world of the reference OS after connections 1 and 2 were closed. *)
Definition closed12 : mockOS := mk_mockOS [1%nat; 2%nat] [] [] [] [].

(** ** Shapes of a finished call *)

(** The local guard fired: [EINVAL] is returned, the receiver and the world
    are as before, no call was made. *)
Definition not_ready {W S : Type} (c : S) (w : W) : final W (S * error) :=
  mkfinal (Returned (c, EINVAL)) w [].

(** Exactly one call [e] was made; what it answered is returned as it is and
    the receiver is as before. *)
Definition delegated {W S : Type} (h : handler W) (e : osE error) (c : S) (w : W)
  : final W (S * error) :=
  let (err, w1) := h _ e w in
  mkfinal (Returned (c, err)) w1 [Call e].

(** The descriptor lookup [e] was made once.  If it failed its error is
    returned and nothing else happened; otherwise [setControlMessage] ran
    once on the handler's raw option state [opt], its error is returned and
    the raw option state it left is stored back with [store]. *)
Definition delegated_control {W S : Type} (h : handler W) (e : osE (Z * error))
    (opt : rawOpt) (store : rawOpt -> S) (c : S) (cf : ControlFlags) (on : bool) (w : W)
  : final W (S * error) :=
  let (r, w1) := h _ e w in
  let (fd, err) := r in
  match err with
  | Some _ => mkfinal (Returned (c, err)) w1 [Call e]
  | None =>
      let f := run h (setControlMessage fd opt cf on) w1 in
      match result f with
      | Returned s => mkfinal (Returned (store (fst s), snd s)) (world f) (Call e :: calls f)
      | Panicked p => mkfinal (Panicked p) (world f) (Call e :: calls f)
      end
  end.

(** Sequencing of finished calls. *)
Definition then_run {W A B : Type} (h : handler W) (f1 : final W A) (k : A -> prog B)
  : final W B :=
  match result f1 with
  | Returned a =>
      let f2 := run h (k a) (world f1) in
      mkfinal (result f2) (world f2) (calls f1 ++ calls f2)
  | Panicked p => mkfinal (Panicked p) (world f1) (calls f1)
  end.

(** Calls to the option-setting primitives. *)
Definition is_option_call (c : oscall) : bool :=
  match c with
  | Call (setsockopt_control _ _ _) => true
  | Call (setIPv4HeaderPrepend _ _) => true
  | Call _ => false
  end.

Unset Implicit Arguments.

(** What a call of [NewRawConn c] can come to, against the OS [h] in the
    world [w]: the endpoint is built and both OS steps succeeded; the
    descriptor lookup failed; the header-prepend enablement failed; or [c]
    does not hold a [*net.IPConn] and the construction panicked. *)
Inductive NewRawConn_outcome {W : Type} (h : handler W) (w : W) (c : net_PacketConn)
  : final W (option RawConn * error) -> Prop :=
| raw_built (ip : ptr) (fd : Z) (w1 w2 : W) :
    c = Some (mkdyn IPConnPtr ip) ->
    h _ (sysfd_packetHandler ip) w = ((fd, nil_error), w1) ->
    h _ (setIPv4HeaderPrepend fd true) w1 = (nil_error, w2) ->
    NewRawConn_outcome h w c
      (mkfinal
         (Returned (Some (mk_RawConn (mk_genericOpt c) (mk_dgramOpt c)
                            (mk_packetHandler ip rawOpt_zero)), nil_error))
         w2 [Call (sysfd_packetHandler ip); Call (setIPv4HeaderPrepend fd true)])
| raw_lookup_failed (ip : ptr) (fd : Z) (e : errval) (w1 : W) :
    c = Some (mkdyn IPConnPtr ip) ->
    h _ (sysfd_packetHandler ip) w = ((fd, Some e), w1) ->
    NewRawConn_outcome h w c
      (mkfinal (Returned (None, Some e)) w1 [Call (sysfd_packetHandler ip)])
| raw_prepend_failed (ip : ptr) (fd : Z) (e : errval) (w1 w2 : W) :
    c = Some (mkdyn IPConnPtr ip) ->
    h _ (sysfd_packetHandler ip) w = ((fd, nil_error), w1) ->
    h _ (setIPv4HeaderPrepend fd true) w1 = (Some e, w2) ->
    NewRawConn_outcome h w c
      (mkfinal (Returned (None, Some e)) w2
         [Call (sysfd_packetHandler ip); Call (setIPv4HeaderPrepend fd true)])
| raw_wrong_kind :
    (forall ip : ptr, c <> Some (mkdyn IPConnPtr ip)) ->
    NewRawConn_outcome h w c (mkfinal (Panicked InterfaceConversion) w []).

(** ** Confinement to the control handler *)

(** What a caller who looks only at the part [proj] of the receiver sees of
    a finished call. *)
Definition observe {W S H : Type} (proj : S -> H) (f : final W (S * error))
  : final W (H * error) :=
  mkfinal
    (match result f with
     | Returned r => Returned (proj (fst r), snd r)
     | Panicked p => Panicked p
     end)
    (world f) (calls f).

(** The part [proj] of the receiver is after the call what it was in [c]. *)
Definition keeps {W S A : Type} (proj : S -> A) (c : S) (f : final W (S * error)) : Prop :=
  forall (c' : S) (e : error), result f = Returned (c', e) -> proj c' = proj c.

(** A PacketConn method is confined to the payload handler: two receivers
    with the same payload handler give the same error, the same handler
    afterwards, the same world and the same calls; and the genericOpt and
    dgramOpt of the receiver are after the call what they were before. *)
Definition PacketConn_confined {W : Type} (h : handler W) (w : W)
    (m : option PacketConn -> prog (PacketConn * error)) : Prop :=
  (forall c1 c2 : PacketConn,
      PacketConn_payloadHandler c1 = PacketConn_payloadHandler c2 ->
      observe PacketConn_payloadHandler (run h (m (Some c1)) w) =
      observe PacketConn_payloadHandler (run h (m (Some c2)) w)) /\
  (forall c : PacketConn,
      keeps PacketConn_genericOpt c (run h (m (Some c)) w) /\
      keeps PacketConn_dgramOpt c (run h (m (Some c)) w)).

(** The same for a RawConn method and the packet handler. *)
Definition RawConn_confined {W : Type} (h : handler W) (w : W)
    (m : option RawConn -> prog (RawConn * error)) : Prop :=
  (forall c1 c2 : RawConn,
      RawConn_packetHandler c1 = RawConn_packetHandler c2 ->
      observe RawConn_packetHandler (run h (m (Some c1)) w) =
      observe RawConn_packetHandler (run h (m (Some c2)) w)) /\
  (forall c : RawConn,
      keeps RawConn_genericOpt c (run h (m (Some c)) w) /\
      keeps RawConn_dgramOpt c (run h (m (Some c)) w)).

(** ** Sequences of method calls *)

(** The public methods of a facade, with their arguments. *)
Inductive method : Type :=
| M_SetControlMessage (cf : ControlFlags) (on : bool)
| M_SetDeadline (t : time)
| M_SetReadDeadline (t : time)
| M_SetWriteDeadline (t : time)
| M_Close.

Definition PacketConn_call (m : method) (p : option PacketConn)
  : prog (PacketConn * error) :=
  match m with
  | M_SetControlMessage cf on => PacketConn_SetControlMessage p cf on
  | M_SetDeadline t => PacketConn_SetDeadline p t
  | M_SetReadDeadline t => PacketConn_SetReadDeadline p t
  | M_SetWriteDeadline t => PacketConn_SetWriteDeadline p t
  | M_Close => PacketConn_Close p
  end.

Definition RawConn_call (m : method) (p : option RawConn) : prog (RawConn * error) :=
  match m with
  | M_SetControlMessage cf on => RawConn_SetControlMessage p cf on
  | M_SetDeadline t => RawConn_SetDeadline p t
  | M_SetReadDeadline t => RawConn_SetReadDeadline p t
  | M_SetWriteDeadline t => RawConn_SetWriteDeadline p t
  | M_Close => RawConn_Close p
  end.

(** A client that calls the methods [ms] one after the other through the
    same receiver pointer and collects the errors they return. *)
Fixpoint call_all {S : Type} (call : method -> option S -> prog (S * error))
    (ms : list method) (c : S) : prog (S * list error) :=
  match ms with
  | [] => Ret (c, [])
  | m :: ms' =>
      r <- call m (Some c) ;;
      rs <- call_all call ms' (fst r) ;;
      Ret (fst rs, snd r :: snd rs)
  end.

Definition is_M_Close (m : method) : bool :=
  match m with
  | M_Close => true
  | _ => false
  end.

Definition is_M_SetControlMessage (m : method) : bool :=
  match m with
  | M_SetControlMessage _ _ => true
  | _ => false
  end.

(** Equality of connection values. *)
Definition concrete_eqb (a b : concrete) : bool :=
  match a, b with
  | TCPConnPtr, TCPConnPtr => true
  | UDPConnPtr, UDPConnPtr => true
  | IPConnPtr, IPConnPtr => true
  | UnixConnPtr, UnixConnPtr => true
  | UserType c1 p1, UserType c2 p2 => Bool.eqb c1 c2 && Bool.eqb p1 p2
  | _, _ => false
  end.

Definition ptr_eqb (a b : ptr) : bool :=
  match a, b with
  | None, None => true
  | Some n, Some m => Nat.eqb n m
  | _, _ => false
  end.

Definition dyn_eqb (a b : dyn) : bool :=
  concrete_eqb (dtype a) (dtype b) && ptr_eqb (dval a) (dval b).

Definition iface_eqb (a b : iface) : bool :=
  match a, b with
  | None, None => true
  | Some x, Some y => dyn_eqb x y
  | _, _ => false
  end.

(** The OS calls a facade over the connection [d] may make: a method of
    [d], a descriptor lookup on [d], or an option update.  A call on another
    connection, and a header-prepend change, are not among them. *)
Definition concerns (d : dyn) (c : oscall) : bool :=
  match c with
  | Call (Conn_SetDeadline x _) => dyn_eqb x d
  | Call (Conn_SetReadDeadline x _) => dyn_eqb x d
  | Call (Conn_SetWriteDeadline x _) => dyn_eqb x d
  | Call (Conn_Close x) => dyn_eqb x d
  | Call (sysfd_payloadHandler x) => iface_eqb x (Some d)
  | Call (sysfd_packetHandler x) => dyn_eqb (IPConn_recv x) d
  | Call (setsockopt_control _ _ _) => true
  | Call (setIPv4HeaderPrepend _ _) => false
  end.

Definition is_Conn_Close (c : oscall) : bool :=
  match c with
  | Call (Conn_Close _) => true
  | Call _ => false
  end.

(** How many times a connection was closed in a list of calls. *)
Definition closes (l : list oscall) : nat := List.length (filter is_Conn_Close l).

(** The PacketConn that [NewPacketConn c] builds. *)
Definition PacketConn_over (c : net_PacketConn) : PacketConn :=
  mk_PacketConn (mk_genericOpt c) (mk_dgramOpt c) (mk_payloadHandler c rawOpt_zero).

(** The error, the world and the calls of a finished call, without the
    receiver. *)
Definition outward {W S : Type} (f : final W (S * error)) : final W error :=
  mkfinal
    (match result f with
     | Returned r => Returned (snd r)
     | Panicked p => Panicked p
     end)
    (world f) (calls f).

(** The PacketConn [c] has [g] and [dg] as its first two mixins and its
    payload handler holds the connection [d]. *)
Definition PacketConn_wraps (d : dyn) (g : genericOpt) (dg : dgramOpt) (c : PacketConn)
  : Prop :=
  payloadHandler_c (PacketConn_payloadHandler c) = Some d /\
  PacketConn_genericOpt c = g /\
  PacketConn_dgramOpt c = dg.

(** The RawConn [c] has [g] and [dg] as its first two mixins and its packet
    handler holds the non-nil [*net.IPConn] [n]. *)
Definition RawConn_wraps (n : nat) (g : genericOpt) (dg : dgramOpt) (c : RawConn) : Prop :=
  packetHandler_c (RawConn_packetHandler c) = Some n /\
  RawConn_genericOpt c = g /\
  RawConn_dgramOpt c = dg.

(** The calls made by the facade method itself, on the connection or for
    its descriptor, as opposed to the option updates that [setControlMessage]
    requests. *)
Definition is_direct_call (c : oscall) : bool := negb (is_option_call c).

(** How many calls of a list the facade methods made themselves. *)
Definition direct (l : list oscall) : nat := List.length (filter is_direct_call l).

(** One per direct call, and one per closing call. *)
Definition one_if_direct (c : oscall) : nat := if is_direct_call c then 1 else 0.
Definition one_if_close (c : oscall) : nat := if is_Conn_Close c then 1 else 0.

(** What one finished call on a ready endpoint over [d] looks like: it
    returned, the OS calls made are all about [d], exactly one of them was
    made by the method itself, and [d] was closed exactly when the method was
    Close. *)
Definition one_call_on {W S : Type} (d : dyn) (m : method) (f : final W (S * error))
    (c' : S) (e : error) : Prop :=
  result f = Returned (c', e) /\
  forallb (concerns d) (calls f) = true /\
  direct (calls f) = 1%nat /\
  closes (calls f) = (if is_M_Close m then 1 else 0)%nat.

(** A sequence of calls used in examples. *)
Definition demo_calls : list method :=
  [M_SetDeadline 1; M_SetControlMessage 3 true; M_Close; M_SetReadDeadline 2; M_Close].

(** Calls of a method of the wrapped connection. *)
Definition is_Conn_method (c : oscall) : bool :=
  match c with
  | Call (Conn_SetDeadline _ _) => true
  | Call (Conn_SetReadDeadline _ _) => true
  | Call (Conn_SetWriteDeadline _ _) => true
  | Call (Conn_Close _) => true
  | Call _ => false
  end.

(** ** Running programs *)

Lemma run_bind {W A B : Type} (h : handler W) (m : prog A) (k : A -> prog B) (w : W) :
  run h (bind m k) w = then_run h (run h m w) k.
Proof.
  revert w. induction m as [a | p | X e k' IH]; intro w.
  - unfold then_run; simpl. destruct (run h (k a) w); reflexivity.
  - reflexivity.
  - simpl. destruct (h X e w) as [x w1]. rewrite IH.
    unfold then_run; simpl. destruct (result (run h (k' x) w1)); reflexivity.
Qed.

Lemma run_trigger {W X : Type} (h : handler W) (e : osE X) (w : W) :
  run h (trigger e) w = mkfinal (Returned (fst (h _ e w))) (snd (h _ e w)) [Call e].
Proof. simpl. destruct (h X e w); reflexivity. Qed.

Lemma run_setControlMessage {W : Type} (h : handler W) fd opt cf on (w : W) :
  run h (setControlMessage fd opt cf on) w =
  let (err, w1) := h _ (setsockopt_control fd cf on) w in
  mkfinal (Returned (match err with
                     | Some _ => opt
                     | None => rawOpt_update opt cf on
                     end, err)) w1 [Call (setsockopt_control fd cf on)].
Proof.
  unfold setControlMessage; simpl.
  destruct (h _ (setsockopt_control fd cf on) w) as [[e|] w1]; reflexivity.
Qed.

Lemma PacketConn_with_rawOpt_same (c : PacketConn) :
  PacketConn_with_rawOpt c (payloadHandler_rawOpt (PacketConn_payloadHandler c)) = c.
Proof. destruct c as [g d [pc opt]]; reflexivity. Qed.

Lemma RawConn_with_rawOpt_same (c : RawConn) :
  RawConn_with_rawOpt c (packetHandler_rawOpt (RawConn_packetHandler c)) = c.
Proof. destruct c as [g d [pc opt]]; reflexivity. Qed.

Lemma payloadHandler_ok_true (h : payloadHandler) :
  payloadHandler_ok (Some h) = true -> exists d, payloadHandler_c h = Some d.
Proof.
  simpl. destruct (payloadHandler_c h) as [d|]; [eauto | discriminate].
Qed.

Lemma packetHandler_ok_true (h : packetHandler) :
  packetHandler_ok (Some h) = true -> exists n, packetHandler_c h = Some n.
Proof.
  simpl. destruct (packetHandler_c h) as [n|]; [eauto | discriminate].
Qed.

(** *** The guard *)

Ltac guard_fires m H := unfold m, deref; cbn [bind]; rewrite H; reflexivity.

Section Guard.
Variables (W : Type) (h : handler W) (w : W).

Section OnPacketConn.
Variable c : PacketConn.
Hypothesis notok : payloadHandler_ok (Some (PacketConn_payloadHandler c)) = false.

Lemma PacketConn_SetControlMessage_not_ready cf on :
  run h (PacketConn_SetControlMessage (Some c) cf on) w = not_ready c w.
Proof. guard_fires PacketConn_SetControlMessage notok. Qed.

Lemma PacketConn_SetDeadline_not_ready t :
  run h (PacketConn_SetDeadline (Some c) t) w = not_ready c w.
Proof. guard_fires PacketConn_SetDeadline notok. Qed.

Lemma PacketConn_SetReadDeadline_not_ready t :
  run h (PacketConn_SetReadDeadline (Some c) t) w = not_ready c w.
Proof. guard_fires PacketConn_SetReadDeadline notok. Qed.

Lemma PacketConn_SetWriteDeadline_not_ready t :
  run h (PacketConn_SetWriteDeadline (Some c) t) w = not_ready c w.
Proof. guard_fires PacketConn_SetWriteDeadline notok. Qed.

Lemma PacketConn_Close_not_ready :
  run h (PacketConn_Close (Some c)) w = not_ready c w.
Proof. guard_fires PacketConn_Close notok. Qed.
End OnPacketConn.

Section OnRawConn.
Variable c : RawConn.
Hypothesis notok : packetHandler_ok (Some (RawConn_packetHandler c)) = false.

Lemma RawConn_SetControlMessage_not_ready cf on :
  run h (RawConn_SetControlMessage (Some c) cf on) w = not_ready c w.
Proof. guard_fires RawConn_SetControlMessage notok. Qed.

Lemma RawConn_SetDeadline_not_ready t :
  run h (RawConn_SetDeadline (Some c) t) w = not_ready c w.
Proof. guard_fires RawConn_SetDeadline notok. Qed.

Lemma RawConn_SetReadDeadline_not_ready t :
  run h (RawConn_SetReadDeadline (Some c) t) w = not_ready c w.
Proof. guard_fires RawConn_SetReadDeadline notok. Qed.

Lemma RawConn_SetWriteDeadline_not_ready t :
  run h (RawConn_SetWriteDeadline (Some c) t) w = not_ready c w.
Proof. guard_fires RawConn_SetWriteDeadline notok. Qed.

Lemma RawConn_Close_not_ready :
  run h (RawConn_Close (Some c)) w = not_ready c w.
Proof. guard_fires RawConn_Close notok. Qed.
End OnRawConn.
End Guard.

(** *** Delegation *)

Ltac guard_passes m H :=
  unfold m, deref, dispatch, payloadHandler_ok, packetHandler_ok;
  cbn [bind]; rewrite H; cbn [negb bind trigger run].

Section Delegation.
Variables (W : Type) (h : handler W) (w : W).

Section OnPacketConn.
Variables (c : PacketConn) (d : dyn).
Hypothesis ready : payloadHandler_c (PacketConn_payloadHandler c) = Some d.

Lemma PacketConn_SetControlMessage_delegates cf on :
  run h (PacketConn_SetControlMessage (Some c) cf on) w =
  delegated_control h (sysfd_payloadHandler (Some d))
    (payloadHandler_rawOpt (PacketConn_payloadHandler c))
    (PacketConn_with_rawOpt c) c cf on w.
Proof.
  guard_passes PacketConn_SetControlMessage ready.
  unfold delegated_control.
  destruct (h _ (sysfd_payloadHandler (Some d)) w) as [[fd [e|]] w1]; [reflexivity|].
  rewrite run_bind. unfold then_run.
  destruct (result (run h (setControlMessage fd _ cf on) w1)) as [s|p]; cbn.
  - rewrite app_nil_r. reflexivity.
  - reflexivity.
Qed.

Lemma PacketConn_SetDeadline_delegates t :
  run h (PacketConn_SetDeadline (Some c) t) w = delegated h (Conn_SetDeadline d t) c w.
Proof.
  guard_passes PacketConn_SetDeadline ready. unfold delegated.
  destruct (h _ (Conn_SetDeadline d t) w); reflexivity.
Qed.

Lemma PacketConn_SetReadDeadline_delegates t :
  run h (PacketConn_SetReadDeadline (Some c) t) w =
  delegated h (Conn_SetReadDeadline d t) c w.
Proof.
  guard_passes PacketConn_SetReadDeadline ready. unfold delegated.
  destruct (h _ (Conn_SetReadDeadline d t) w); reflexivity.
Qed.

Lemma PacketConn_SetWriteDeadline_delegates t :
  run h (PacketConn_SetWriteDeadline (Some c) t) w =
  delegated h (Conn_SetWriteDeadline d t) c w.
Proof.
  guard_passes PacketConn_SetWriteDeadline ready. unfold delegated.
  destruct (h _ (Conn_SetWriteDeadline d t) w); reflexivity.
Qed.

Lemma PacketConn_Close_delegates :
  run h (PacketConn_Close (Some c)) w = delegated h (Conn_Close d) c w.
Proof.
  guard_passes PacketConn_Close ready. unfold delegated.
  destruct (h _ (Conn_Close d) w); reflexivity.
Qed.
End OnPacketConn.

Section OnRawConn.
Variables (c : RawConn) (n : nat).
Hypothesis ready : packetHandler_c (RawConn_packetHandler c) = Some n.

Lemma RawConn_SetControlMessage_delegates cf on :
  run h (RawConn_SetControlMessage (Some c) cf on) w =
  delegated_control h (sysfd_packetHandler (Some n))
    (packetHandler_rawOpt (RawConn_packetHandler c))
    (RawConn_with_rawOpt c) c cf on w.
Proof.
  guard_passes RawConn_SetControlMessage ready.
  unfold delegated_control.
  destruct (h _ (sysfd_packetHandler (Some n)) w) as [[fd [e|]] w1]; [reflexivity|].
  rewrite run_bind. unfold then_run.
  destruct (result (run h (setControlMessage fd _ cf on) w1)) as [s|p]; cbn.
  - rewrite app_nil_r. reflexivity.
  - reflexivity.
Qed.

Lemma RawConn_SetDeadline_delegates t :
  run h (RawConn_SetDeadline (Some c) t) w =
  delegated h (Conn_SetDeadline (IPConn_recv (Some n)) t) c w.
Proof.
  guard_passes RawConn_SetDeadline ready. unfold delegated.
  destruct (h _ (Conn_SetDeadline (IPConn_recv (Some n)) t) w); reflexivity.
Qed.

Lemma RawConn_SetReadDeadline_delegates t :
  run h (RawConn_SetReadDeadline (Some c) t) w =
  delegated h (Conn_SetReadDeadline (IPConn_recv (Some n)) t) c w.
Proof.
  guard_passes RawConn_SetReadDeadline ready. unfold delegated.
  destruct (h _ (Conn_SetReadDeadline (IPConn_recv (Some n)) t) w); reflexivity.
Qed.

Lemma RawConn_SetWriteDeadline_delegates t :
  run h (RawConn_SetWriteDeadline (Some c) t) w =
  delegated h (Conn_SetWriteDeadline (IPConn_recv (Some n)) t) c w.
Proof.
  guard_passes RawConn_SetWriteDeadline ready. unfold delegated.
  destruct (h _ (Conn_SetWriteDeadline (IPConn_recv (Some n)) t) w); reflexivity.
Qed.

Lemma RawConn_Close_delegates :
  run h (RawConn_Close (Some c)) w =
  delegated h (Conn_Close (IPConn_recv (Some n))) c w.
Proof.
  guard_passes RawConn_Close ready. unfold delegated.
  destruct (h _ (Conn_Close (IPConn_recv (Some n))) w); reflexivity.
Qed.
End OnRawConn.
End Delegation.

(** ** The facade methods: guard, then delegate *)

(** C1.  Every public method of PacketConn and RawConn (SetControlMessage,
    SetDeadline, SetReadDeadline, SetWriteDeadline, Close), on every receiver
    value and against every implementation of the OS: if the handler's
    [ok()] is false the method returns [EINVAL], leaves the receiver and the
    world as they are and makes no call; if [ok()] is true the deadline and
    close methods make exactly one call, the same method of the wrapped
    connection with the same argument, and return its answer as it is, and
    SetControlMessage makes the handler's descriptor lookup once and, when
    that succeeds, runs [setControlMessage] once on the handler's raw option
    state and returns its answer. *)
Theorem facade_guard_then_delegate :
  forall (W : Type) (h : handler W) (w : W) (cf : ControlFlags) (on : bool) (t : time),
    (forall c : PacketConn,
        (payloadHandler_ok (Some (PacketConn_payloadHandler c)) = false ->
         run h (PacketConn_SetControlMessage (Some c) cf on) w = not_ready c w /\
         run h (PacketConn_SetDeadline (Some c) t) w = not_ready c w /\
         run h (PacketConn_SetReadDeadline (Some c) t) w = not_ready c w /\
         run h (PacketConn_SetWriteDeadline (Some c) t) w = not_ready c w /\
         run h (PacketConn_Close (Some c)) w = not_ready c w)
        /\
        (payloadHandler_ok (Some (PacketConn_payloadHandler c)) = true ->
         exists d : dyn,
           payloadHandler_c (PacketConn_payloadHandler c) = Some d /\
           run h (PacketConn_SetControlMessage (Some c) cf on) w =
             delegated_control h (sysfd_payloadHandler (Some d))
               (payloadHandler_rawOpt (PacketConn_payloadHandler c))
               (PacketConn_with_rawOpt c) c cf on w /\
           run h (PacketConn_SetDeadline (Some c) t) w =
             delegated h (Conn_SetDeadline d t) c w /\
           run h (PacketConn_SetReadDeadline (Some c) t) w =
             delegated h (Conn_SetReadDeadline d t) c w /\
           run h (PacketConn_SetWriteDeadline (Some c) t) w =
             delegated h (Conn_SetWriteDeadline d t) c w /\
           run h (PacketConn_Close (Some c)) w = delegated h (Conn_Close d) c w))
    /\
    (forall c : RawConn,
        (packetHandler_ok (Some (RawConn_packetHandler c)) = false ->
         run h (RawConn_SetControlMessage (Some c) cf on) w = not_ready c w /\
         run h (RawConn_SetDeadline (Some c) t) w = not_ready c w /\
         run h (RawConn_SetReadDeadline (Some c) t) w = not_ready c w /\
         run h (RawConn_SetWriteDeadline (Some c) t) w = not_ready c w /\
         run h (RawConn_Close (Some c)) w = not_ready c w)
        /\
        (packetHandler_ok (Some (RawConn_packetHandler c)) = true ->
         exists n : nat,
           packetHandler_c (RawConn_packetHandler c) = Some n /\
           run h (RawConn_SetControlMessage (Some c) cf on) w =
             delegated_control h (sysfd_packetHandler (Some n))
               (packetHandler_rawOpt (RawConn_packetHandler c))
               (RawConn_with_rawOpt c) c cf on w /\
           run h (RawConn_SetDeadline (Some c) t) w =
             delegated h (Conn_SetDeadline (IPConn_recv (Some n)) t) c w /\
           run h (RawConn_SetReadDeadline (Some c) t) w =
             delegated h (Conn_SetReadDeadline (IPConn_recv (Some n)) t) c w /\
           run h (RawConn_SetWriteDeadline (Some c) t) w =
             delegated h (Conn_SetWriteDeadline (IPConn_recv (Some n)) t) c w /\
           run h (RawConn_Close (Some c)) w =
             delegated h (Conn_Close (IPConn_recv (Some n))) c w)).
Proof.
  intros W h w cf on t. split; intro c; split; intro Hok.
  - repeat split.
    + now apply PacketConn_SetControlMessage_not_ready.
    + now apply PacketConn_SetDeadline_not_ready.
    + now apply PacketConn_SetReadDeadline_not_ready.
    + now apply PacketConn_SetWriteDeadline_not_ready.
    + now apply PacketConn_Close_not_ready.
  - destruct (payloadHandler_ok_true _ Hok) as [d Hd]. exists d. repeat split.
    + exact Hd.
    + now apply PacketConn_SetControlMessage_delegates.
    + now apply PacketConn_SetDeadline_delegates.
    + now apply PacketConn_SetReadDeadline_delegates.
    + now apply PacketConn_SetWriteDeadline_delegates.
    + now apply PacketConn_Close_delegates.
  - repeat split.
    + now apply RawConn_SetControlMessage_not_ready.
    + now apply RawConn_SetDeadline_not_ready.
    + now apply RawConn_SetReadDeadline_not_ready.
    + now apply RawConn_SetWriteDeadline_not_ready.
    + now apply RawConn_Close_not_ready.
  - destruct (packetHandler_ok_true _ Hok) as [n Hn]. exists n. repeat split.
    + exact Hn.
    + now apply RawConn_SetControlMessage_delegates.
    + now apply RawConn_SetDeadline_delegates.
    + now apply RawConn_SetReadDeadline_delegates.
    + now apply RawConn_SetWriteDeadline_delegates.
    + now apply RawConn_Close_delegates.
Qed.

(** On the reference OS: the zero-value PacketConn refuses Close locally,
    and SetDeadline on a RawConn over connection 2 is one call to that
    connection's SetDeadline. *)
Lemma facade_guard_then_delegate_witness :
  run mock (PacketConn_Close (Some zero_PacketConn)) fresh =
    mkfinal (Returned (zero_PacketConn, EINVAL)) fresh [] /\
  run mock (RawConn_SetDeadline (Some ip2_RawConn) 5) fresh =
    mkfinal (Returned (ip2_RawConn, nil_error)) fresh
      [Call (Conn_SetDeadline (mkdyn IPConnPtr (Some 2%nat)) 5)].
Proof.
  destruct (facade_guard_then_delegate mockOS mock fresh 1 true 5) as [HP HR]. split.
  - destruct (HP zero_PacketConn) as [Hf _].
    destruct (Hf eq_refl) as (_ & _ & _ & _ & Hc). exact Hc.
  - destruct (HR ip2_RawConn) as [_ Ht].
    destruct (Ht eq_refl) as (n & Hn & _ & Hd & _).
    injection Hn as <-. exact Hd.
Defined.

(** ** Constructors *)

Lemma NewPacketConn_nil : NewPacketConn None = Panic InterfaceConversion.
Proof. reflexivity. Qed.

Lemma NewRawConn_nil : NewRawConn None = Panic InterfaceConversion.
Proof. reflexivity. Qed.

(** C2, as stated, fails: called with a nil connection, NewPacketConn and
    NewRawConn return no Endpoint at all. *)
Lemma nil_connection_no_endpoint :
  ~ (exists p : option PacketConn,
        result (run mock (NewPacketConn None) fresh) = Returned p) /\
  ~ (exists r : option RawConn * error,
        result (run mock (NewRawConn None) fresh) = Returned r).
Proof.
  split; intros [x Hx]; discriminate Hx.
Qed.

(** C2, amended.  NewConn called with a nil connection returns a Conn
    whose readiness check is false, without any OS interaction.  NewPacketConn
    and NewRawConn called with a nil connection panic at the type assertion,
    without any OS interaction.  On a PacketConn or RawConn whose handler
    holds a nil connection (the zero value is one) every public method
    returns [EINVAL] without any OS interaction. *)
Theorem nil_connection_endpoints :
  forall (W : Type) (h : handler W) (w : W),
    run h (NewConn None) w = mkfinal (Returned (Some (mk_Conn (mk_genericOpt None)))) w [] /\
    genericOpt_ok (Some (Conn_genericOpt (mk_Conn (mk_genericOpt None)))) = false /\
    run h (NewPacketConn None) w = mkfinal (Panicked InterfaceConversion) w [] /\
    run h (NewRawConn None) w = mkfinal (Panicked InterfaceConversion) w [] /\
    (forall (g : genericOpt) (dg : dgramOpt) (opt : rawOpt)
            (cf : ControlFlags) (on : bool) (t : time),
        let c := mk_PacketConn g dg (mk_payloadHandler None opt) in
        run h (PacketConn_SetControlMessage (Some c) cf on) w = not_ready c w /\
        run h (PacketConn_SetDeadline (Some c) t) w = not_ready c w /\
        run h (PacketConn_SetReadDeadline (Some c) t) w = not_ready c w /\
        run h (PacketConn_SetWriteDeadline (Some c) t) w = not_ready c w /\
        run h (PacketConn_Close (Some c)) w = not_ready c w) /\
    (forall (g : genericOpt) (dg : dgramOpt) (opt : rawOpt)
            (cf : ControlFlags) (on : bool) (t : time),
        let c := mk_RawConn g dg (mk_packetHandler None opt) in
        run h (RawConn_SetControlMessage (Some c) cf on) w = not_ready c w /\
        run h (RawConn_SetDeadline (Some c) t) w = not_ready c w /\
        run h (RawConn_SetReadDeadline (Some c) t) w = not_ready c w /\
        run h (RawConn_SetWriteDeadline (Some c) t) w = not_ready c w /\
        run h (RawConn_Close (Some c)) w = not_ready c w).
Proof.
  intros W h w. repeat split.
Qed.

(** On the reference OS, NewRawConn over a connection whose header-prepend
    enablement is refused returns no endpoint and the refusal, after the
    lookup and the one refused call. *)
Example NewRawConn_prepend_refused :
  run mock (NewRawConn ip2) (mk_mockOS [] [] [] [] [5]) =
  mkfinal (Returned (None, EPERM)) (mk_mockOS [] [] [] [] [5])
    [Call (sysfd_packetHandler (Some 2%nat)); Call (setIPv4HeaderPrepend 5 true)].
Proof. reflexivity. Qed.

Example NewRawConn_ip2 :
  run mock (NewRawConn ip2) fresh =
  mkfinal (Returned (Some ip2_RawConn, nil_error)) (mk_mockOS [] [] [(5, true)] [] [])
    [Call (sysfd_packetHandler (Some 2%nat)); Call (setIPv4HeaderPrepend 5 true)].
Proof. reflexivity. Qed.

(** C3, as stated, fails: over a UDP connection, which is a packet
    connection, NewRawConn returns neither a RawConn nor an error. *)
Lemma NewRawConn_udp_returns_nothing :
  is_net_PacketConn udp1 = true /\
  ~ (exists r : option RawConn * error,
        result (run mock (NewRawConn udp1) fresh) = Returned r).
Proof.
  split; [reflexivity | intros [x Hx]; discriminate Hx].
Qed.

(** C3, amended.  For every underlying packet connection, every OS and
    every world, NewRawConn comes to one of four ends.  When the connection
    holds a [*net.IPConn]: the descriptor lookup and the header-prepend
    enablement both succeeded and the fully built RawConn is returned with a
    nil error; or the lookup failed and a nil RawConn is returned with the
    lookup's error, the lookup being the only call made; or the enablement
    failed and a nil RawConn is returned with its error, the enablement being
    the last call made.  Otherwise the type assertion panics before any
    call.  A RawConn that is returned comes with a nil error, wraps the
    connection in its three mixins with an empty raw option state, and is
    ready whenever the [*net.IPConn] it holds is non-nil. *)
Theorem NewRawConn_atomic :
  forall (W : Type) (h : handler W) (w : W) (c : net_PacketConn),
    NewRawConn_outcome h w c (run h (NewRawConn c) w) /\
    (forall (r : RawConn) (e : error),
        result (run h (NewRawConn c) w) = Returned (Some r, e) ->
        e = nil_error /\
        RawConn_genericOpt r = mk_genericOpt c /\
        RawConn_dgramOpt r = mk_dgramOpt c /\
        packetHandler_rawOpt (RawConn_packetHandler r) = rawOpt_zero /\
        c = Some (mkdyn IPConnPtr (packetHandler_c (RawConn_packetHandler r))) /\
        (packetHandler_c (RawConn_packetHandler r) <> None ->
         packetHandler_ok (Some (RawConn_packetHandler r)) = true)).
Proof.
  intros W h w c.
  assert (Hout : NewRawConn_outcome h w c (run h (NewRawConn c) w)).
  { destruct c as [[ty ip]|].
    2: { apply raw_wrong_kind; discriminate. }
    destruct ty as [ | | | | hc hp];
      try (apply raw_wrong_kind; discriminate).
    - unfold NewRawConn. cbn.
      destruct (h _ (sysfd_packetHandler ip) w) as [[fd [e|]] w1] eqn:E1.
      + cbn. eapply raw_lookup_failed; [reflexivity | exact E1].
      + cbn. destruct (h _ (setIPv4HeaderPrepend fd true) w1) as [[e|] w2] eqn:E2; cbn.
        * eapply raw_prepend_failed; [reflexivity | exact E1 | exact E2].
        * eapply raw_built; [reflexivity | exact E1 | exact E2].
    - destruct hc; cbn; apply raw_wrong_kind; discriminate. }
  split; [exact Hout |].
  intros r e. generalize (run h (NewRawConn c) w) Hout. clear Hout.
  intros f [ip fd w1 w2 Hc _ _ | ip fd e' w1 Hc _ | ip fd e' w1 w2 Hc _ _ | _];
    cbn; intro Hr; try discriminate Hr.
  injection Hr as <- <-. cbn.
  repeat split; try assumption.
  destruct ip; [reflexivity | intro Hn; contradiction].
Qed.

(** ** SetControlMessage *)

Lemma delegated_control_lookup_failed {W S : Type} (h : handler W) (e : osE (Z * error))
    (opt : rawOpt) (store : rawOpt -> S) (c : S) cf on (w w1 : W) (fd : Z) (err : errval) :
  h _ e w = ((fd, Some err), w1) ->
  delegated_control h e opt store c cf on w = mkfinal (Returned (c, Some err)) w1 [Call e].
Proof. intro E. unfold delegated_control. rewrite E. reflexivity. Qed.

Lemma delegated_control_result {W S : Type} (h : handler W) (e : osE (Z * error))
    (opt : rawOpt) (store : rawOpt -> S) (c : S) cf on (w : W) :
  store opt = c ->
  exists (c' : S) (err : error),
    result (delegated_control h e opt store c cf on w) = Returned (c', err) /\
    match err with
    | Some _ => c' = c
    | None => c' = store (rawOpt_update opt cf on)
    end.
Proof.
  intro Hsame. unfold delegated_control.
  destruct (h _ e w) as [[fd [e1|]] w1].
  - exists c, (Some e1). split; reflexivity.
  - rewrite run_setControlMessage.
    destruct (h _ (setsockopt_control fd cf on) w1) as [[e2|] w2]; cbn.
    + exists (store opt), (Some e2). split; [reflexivity | exact Hsame].
    + exists (store (rawOpt_update opt cf on)), None. split; reflexivity.
Qed.

(** C4.  On a ready PacketConn or RawConn, against every OS,
    SetControlMessage returns, and when it returns an error (from the
    descriptor lookup or from the OS option update) the receiver, and with
    it the handler's raw option state, is exactly what it was before the
    call; when it returns nil the raw option state is the former one with
    the requested classes added (on) or removed (off), nothing else of the
    receiver having changed. *)
Theorem SetControlMessage_failure_keeps_rawOpt :
  forall (W : Type) (h : handler W) (w : W) (cf : ControlFlags) (on : bool),
    (forall c : PacketConn,
        payloadHandler_ok (Some (PacketConn_payloadHandler c)) = true ->
        exists (c' : PacketConn) (err : error),
          result (run h (PacketConn_SetControlMessage (Some c) cf on) w) = Returned (c', err) /\
          match err with
          | Some _ => c' = c
          | None =>
              c' = PacketConn_with_rawOpt c
                     (rawOpt_update (payloadHandler_rawOpt (PacketConn_payloadHandler c)) cf on)
          end)
    /\
    (forall c : RawConn,
        packetHandler_ok (Some (RawConn_packetHandler c)) = true ->
        exists (c' : RawConn) (err : error),
          result (run h (RawConn_SetControlMessage (Some c) cf on) w) = Returned (c', err) /\
          match err with
          | Some _ => c' = c
          | None =>
              c' = RawConn_with_rawOpt c
                     (rawOpt_update (packetHandler_rawOpt (RawConn_packetHandler c)) cf on)
          end).
Proof.
  intros W h w cf on. split; intros c Hok.
  - destruct (payloadHandler_ok_true _ Hok) as [d Hd].
    rewrite (PacketConn_SetControlMessage_delegates W h w c d Hd).
    apply delegated_control_result, PacketConn_with_rawOpt_same.
  - destruct (packetHandler_ok_true _ Hok) as [n Hn].
    rewrite (RawConn_SetControlMessage_delegates W h w c n Hn).
    apply delegated_control_result, RawConn_with_rawOpt_same.
Qed.

(** On the reference OS refusing option changes on descriptor 4, enabling
    class 1 fails and the recorded classes stay 6; on the OS that accepts
    them, disabling class 2 succeeds and leaves 4. *)
Lemma SetControlMessage_failure_keeps_rawOpt_witness :
  (exists c' err,
      result (run mock (PacketConn_SetControlMessage (Some udp1_with_6) 1 true)
                (mk_mockOS [] [] [] [4] [])) = Returned (c', err) /\
      match err with
      | Some _ => c' = udp1_with_6
      | None => c' = PacketConn_with_rawOpt udp1_with_6 (mk_rawOpt 7)
      end) /\
  result (run mock (PacketConn_SetControlMessage (Some udp1_with_6) 1 true)
            (mk_mockOS [] [] [] [4] [])) = Returned (udp1_with_6, ENOPROTOOPT) /\
  result (run mock (PacketConn_SetControlMessage (Some udp1_with_6) 2 false) fresh) =
    Returned (PacketConn_with_rawOpt udp1_with_6 (mk_rawOpt 4), nil_error).
Proof.
  split; [| split; reflexivity].
  exact (proj1 (SetControlMessage_failure_keeps_rawOpt mockOS mock
                  (mk_mockOS [] [] [] [4] []) 1 true) udp1_with_6 eq_refl).
Defined.

(** C5.  On a ready PacketConn or RawConn, when the descriptor lookup
    answers with an error, SetControlMessage returns that very error, the
    receiver is as before, and the lookup is the only call made: no
    option-setting primitive is invoked. *)
Theorem SetControlMessage_lookup_failure :
  forall (W : Type) (h : handler W) (w w1 : W) (cf : ControlFlags) (on : bool)
         (fd : Z) (e : errval),
    (forall c : PacketConn,
        payloadHandler_ok (Some (PacketConn_payloadHandler c)) = true ->
        h _ (sysfd_payloadHandler (payloadHandler_c (PacketConn_payloadHandler c))) w
          = ((fd, Some e), w1) ->
        run h (PacketConn_SetControlMessage (Some c) cf on) w =
          mkfinal (Returned (c, Some e)) w1
            [Call (sysfd_payloadHandler (payloadHandler_c (PacketConn_payloadHandler c)))] /\
        existsb is_option_call
          (calls (run h (PacketConn_SetControlMessage (Some c) cf on) w)) = false)
    /\
    (forall c : RawConn,
        packetHandler_ok (Some (RawConn_packetHandler c)) = true ->
        h _ (sysfd_packetHandler (packetHandler_c (RawConn_packetHandler c))) w
          = ((fd, Some e), w1) ->
        run h (RawConn_SetControlMessage (Some c) cf on) w =
          mkfinal (Returned (c, Some e)) w1
            [Call (sysfd_packetHandler (packetHandler_c (RawConn_packetHandler c)))] /\
        existsb is_option_call
          (calls (run h (RawConn_SetControlMessage (Some c) cf on) w)) = false).
Proof.
  intros W h w w1 cf on fd e. split; intros c Hok Hfd.
  - destruct (payloadHandler_ok_true _ Hok) as [d Hd].
    rewrite (PacketConn_SetControlMessage_delegates W h w c d Hd).
    rewrite Hd in Hfd |- *.
    rewrite (delegated_control_lookup_failed h _ _ _ c cf on w w1 fd e Hfd).
    split; reflexivity.
  - destruct (packetHandler_ok_true _ Hok) as [n Hn].
    rewrite (RawConn_SetControlMessage_delegates W h w c n Hn).
    rewrite Hn in Hfd |- *.
    rewrite (delegated_control_lookup_failed h _ _ _ c cf on w w1 fd e Hfd).
    split; reflexivity.
Qed.

(** On the reference OS where connections 1 and 2 are already closed, the
    lookup fails and SetControlMessage stops there, on the PacketConn over
    connection 1 and on the RawConn over connection 2. *)
Lemma SetControlMessage_lookup_failure_witness :
  run mock (PacketConn_SetControlMessage (Some udp1_PacketConn) 3 true) closed12 =
    mkfinal (Returned (udp1_PacketConn, errClosing)) closed12
      [Call (sysfd_payloadHandler udp1)] /\
  run mock (RawConn_SetControlMessage (Some ip2_RawConn) 3 true) closed12 =
    mkfinal (Returned (ip2_RawConn, errClosing)) closed12
      [Call (sysfd_packetHandler (Some 2%nat))].
Proof.
  destruct (SetControlMessage_lookup_failure mockOS mock closed12 closed12
              3 true 0 (ErrString "use of closed network connection")) as [HP HR].
  split.
  - exact (proj1 (HP udp1_PacketConn eq_refl eq_refl)).
  - exact (proj1 (HR ip2_RawConn eq_refl eq_refl)).
Defined.

(** ** Readiness *)

(** C6.  [ok()] on a genericOpt and on a dgramOpt is true exactly when the
    receiver is a non-nil reference and the connection it wraps is non-nil.
    [ok()] is a function of the receiver alone: it returns a boolean and
    touches neither the receiver nor the OS. *)
Theorem ok_iff_handle_and_connection :
  (forall p : option genericOpt,
      genericOpt_ok p = true <->
      p <> None /\ (forall g : genericOpt, p = Some g -> genericOpt_c g <> None)) /\
  (forall p : option dgramOpt,
      dgramOpt_ok p = true <->
      p <> None /\ (forall g : dgramOpt, p = Some g -> dgramOpt_c g <> None)).
Proof.
  split; intros [[[d|]]|]; simpl; split.
  all: try discriminate.
  all: try (intros _; split; [discriminate | intros g Hg; injection Hg as <-; discriminate]).
  all: try reflexivity.
  all: try (intros [_ H]; exfalso; eapply H; reflexivity).
  all: intros [H _]; exfalso; apply H; reflexivity.
Qed.

Example ok_examples :
  genericOpt_ok None = false /\
  genericOpt_ok (Some (mk_genericOpt None)) = false /\
  genericOpt_ok (Some (mk_genericOpt udp1)) = true /\
  dgramOpt_ok None = false /\
  dgramOpt_ok (Some (mk_dgramOpt None)) = false /\
  dgramOpt_ok (Some (mk_dgramOpt (Some (mkdyn UDPConnPtr None)))) = true.
Proof. repeat split. Qed.

(** ** Construction over a valid connection *)

(** C7.  Over a non-nil connection NewConn returns, without any OS call, a
    non-nil Conn whose handle wraps the connection and is ready.  Over a
    non-nil packet connection that is also a net.Conn, NewPacketConn returns,
    without any OS call, a non-nil PacketConn whose three mixins wrap the
    connection and are ready.  Neither has an error result.  NewRawConn can
    fail: over a valid raw IP connection it returns a nil RawConn and an error
    when the OS refuses the header-prepend enablement. *)
Theorem constructors_over_valid_connection :
  (forall (W : Type) (h : handler W) (w : W) (c : net_Conn),
      c <> None ->
      run h (NewConn c) w = mkfinal (Returned (Some (mk_Conn (mk_genericOpt c)))) w [] /\
      genericOpt_ok (Some (Conn_genericOpt (mk_Conn (mk_genericOpt c)))) = true) /\
  (forall (W : Type) (h : handler W) (w : W) (c : net_PacketConn) (d : dyn),
      c = Some d ->
      implements_Conn (dtype d) = true ->
      let p := mk_PacketConn (mk_genericOpt c) (mk_dgramOpt c)
                 (mk_payloadHandler c rawOpt_zero) in
      run h (NewPacketConn c) w = mkfinal (Returned (Some p)) w [] /\
      genericOpt_ok (Some (PacketConn_genericOpt p)) = true /\
      dgramOpt_ok (Some (PacketConn_dgramOpt p)) = true /\
      payloadHandler_ok (Some (PacketConn_payloadHandler p)) = true) /\
  (exists (w : mockOS) (e : errval),
      result (run mock (NewRawConn ip2) w) = Returned (None, Some e)).
Proof.
  split; [| split].
  - intros W h w [d|] Hc; [split; reflexivity | contradiction].
  - intros W h w c d -> Hd. unfold NewPacketConn, assert_net_Conn.
    rewrite Hd. repeat split.
  - exists (mk_mockOS [] [] [] [] [5]), (Errno 1). reflexivity.
Qed.

(** On the reference OS, over the UDP connection 1. *)
Lemma constructors_over_valid_connection_witness :
  run mock (NewConn udp1) fresh =
    mkfinal (Returned (Some (mk_Conn (mk_genericOpt udp1)))) fresh [] /\
  run mock (NewPacketConn udp1) fresh = mkfinal (Returned (Some udp1_PacketConn)) fresh [].
Proof.
  destruct constructors_over_valid_connection as (HC & HP & _). split.
  - apply (HC mockOS mock fresh udp1). discriminate.
  - apply (HP mockOS mock fresh udp1 (mkdyn UDPConnPtr (Some 1%nat))); reflexivity.
Defined.

(** ** Close *)

(** C8.  On a ready PacketConn or RawConn, Close is one call to the wrapped
    connection's Close, whose answer it returns, and the receiver is
    unchanged in every field.  So after Close the handler is still ready,
    and SetDeadline and SetControlMessage on the receiver, in the world Close
    left, do not stop at the local guard: they make the call to the wrapped
    connection, or the descriptor lookup, and return what the OS answers. *)
Theorem Close_keeps_the_handler :
  forall (W : Type) (h : handler W) (w : W) (cf : ControlFlags) (on : bool) (t : time),
    (forall c : PacketConn,
        payloadHandler_ok (Some (PacketConn_payloadHandler c)) = true ->
        exists (d : dyn) (err : error) (w' : W),
          payloadHandler_c (PacketConn_payloadHandler c) = Some d /\
          h _ (Conn_Close d) w = (err, w') /\
          run h (PacketConn_Close (Some c)) w =
            mkfinal (Returned (c, err)) w' [Call (Conn_Close d)] /\
          payloadHandler_ok (Some (PacketConn_payloadHandler c)) = true /\
          run h (PacketConn_SetDeadline (Some c) t) w' =
            delegated h (Conn_SetDeadline d t) c w' /\
          run h (PacketConn_SetControlMessage (Some c) cf on) w' =
            delegated_control h (sysfd_payloadHandler (Some d))
              (payloadHandler_rawOpt (PacketConn_payloadHandler c))
              (PacketConn_with_rawOpt c) c cf on w')
    /\
    (forall c : RawConn,
        packetHandler_ok (Some (RawConn_packetHandler c)) = true ->
        exists (n : nat) (err : error) (w' : W),
          packetHandler_c (RawConn_packetHandler c) = Some n /\
          h _ (Conn_Close (IPConn_recv (Some n))) w = (err, w') /\
          run h (RawConn_Close (Some c)) w =
            mkfinal (Returned (c, err)) w' [Call (Conn_Close (IPConn_recv (Some n)))] /\
          packetHandler_ok (Some (RawConn_packetHandler c)) = true /\
          run h (RawConn_SetDeadline (Some c) t) w' =
            delegated h (Conn_SetDeadline (IPConn_recv (Some n)) t) c w' /\
          run h (RawConn_SetControlMessage (Some c) cf on) w' =
            delegated_control h (sysfd_packetHandler (Some n))
              (packetHandler_rawOpt (RawConn_packetHandler c))
              (RawConn_with_rawOpt c) c cf on w').
Proof.
  intros W h w cf on t. split; intros c Hok.
  - destruct (payloadHandler_ok_true _ Hok) as [d Hd].
    destruct (h _ (Conn_Close d) w) as [err w'] eqn:E.
    exists d, err, w'. repeat split; try assumption.
    + rewrite (PacketConn_Close_delegates W h w c d Hd). unfold delegated.
      rewrite E. reflexivity.
    + now apply PacketConn_SetDeadline_delegates.
    + now apply PacketConn_SetControlMessage_delegates.
  - destruct (packetHandler_ok_true _ Hok) as [n Hn].
    destruct (h _ (Conn_Close (IPConn_recv (Some n))) w) as [err w'] eqn:E.
    exists n, err, w'. repeat split; try assumption.
    + rewrite (RawConn_Close_delegates W h w c n Hn). unfold delegated.
      rewrite E. reflexivity.
    + now apply RawConn_SetDeadline_delegates.
    + now apply RawConn_SetControlMessage_delegates.
Qed.

(** On the reference OS: Close succeeds, and afterwards SetDeadline and
    SetControlMessage return the OS's closed-connection error. *)
Example Close_then_calls :
  run mock (PacketConn_Close (Some udp1_PacketConn)) fresh =
    mkfinal (Returned (udp1_PacketConn, nil_error)) closed1
      [Call (Conn_Close (mkdyn UDPConnPtr (Some 1%nat)))] /\
  run mock (PacketConn_SetDeadline (Some udp1_PacketConn) 9) closed1 =
    mkfinal (Returned (udp1_PacketConn, errClosing)) closed1
      [Call (Conn_SetDeadline (mkdyn UDPConnPtr (Some 1%nat)) 9)] /\
  run mock (PacketConn_SetControlMessage (Some udp1_PacketConn) 1 true) closed1 =
    mkfinal (Returned (udp1_PacketConn, errClosing)) closed1
      [Call (sysfd_payloadHandler udp1)].
Proof. repeat split. Qed.

Lemma Close_keeps_the_handler_witness :
  exists (err : error) (w' : mockOS),
    mock _ (Conn_Close (mkdyn UDPConnPtr (Some 1%nat))) fresh = (err, w') /\
    run mock (PacketConn_Close (Some udp1_PacketConn)) fresh =
      mkfinal (Returned (udp1_PacketConn, err)) w'
        [Call (Conn_Close (mkdyn UDPConnPtr (Some 1%nat)))] /\
    run mock (PacketConn_SetDeadline (Some udp1_PacketConn) 9) w' =
      delegated mock (Conn_SetDeadline (mkdyn UDPConnPtr (Some 1%nat)) 9) udp1_PacketConn w'.
Proof.
  destruct (proj1 (Close_keeps_the_handler mockOS mock fresh 1 true 9)
              udp1_PacketConn eq_refl)
    as (d & err & w' & Hd & Hc & Hrun & _ & Hdl & _).
  injection Hd as <-.
  exists err, w'. repeat split; assumption.
Defined.

(** ** Unchecked downcasts *)

(** C9.  The constructors convert the connection they are given without
    checking.  NewPacketConn panics on a packet connection whose type is
    not also a net.Conn; NewRawConn panics on every connection that is not a
    [*net.IPConn], a UDP connection for one.  In each case nothing is
    returned, no error is reported, and no OS call is made. *)
Theorem constructors_unchecked_downcast :
  (exists c : net_PacketConn,
      c <> None /\ is_net_PacketConn c = true /\
      forall (W : Type) (h : handler W) (w : W),
        run h (NewPacketConn c) w = mkfinal (Panicked InterfaceConversion) w []) /\
  (exists c : net_PacketConn,
      c <> None /\ is_net_PacketConn c = true /\ is_net_Conn c = true /\
      forall (W : Type) (h : handler W) (w : W),
        run h (NewRawConn c) w = mkfinal (Panicked InterfaceConversion) w []) /\
  (forall (c : net_PacketConn) (d : dyn),
      c = Some d -> dtype d <> IPConnPtr -> NewRawConn c = Panic InterfaceConversion) /\
  (forall (c : net_PacketConn) (d : dyn),
      c = Some d -> implements_Conn (dtype d) = false ->
      NewPacketConn c = Panic InterfaceConversion).
Proof.
  split; [| split; [| split]].
  - exists packet_only. repeat split. discriminate.
  - exists udp1. repeat split. discriminate.
  - intros c [ty ip] -> Hty. simpl in Hty. unfold NewRawConn.
    destruct ty as [ | | | | [|] hp]; try reflexivity. contradiction.
  - intros c [ty ip] -> Hty. simpl in Hty. unfold NewPacketConn, assert_net_Conn.
    simpl. rewrite Hty. reflexivity.
Qed.

Lemma constructors_unchecked_downcast_witness :
  NewRawConn udp1 = Panic InterfaceConversion /\
  NewPacketConn packet_only = Panic InterfaceConversion.
Proof.
  destruct constructors_unchecked_downcast as (_ & _ & HR & HP). split.
  - apply (HR udp1 (mkdyn UDPConnPtr (Some 1%nat))); [reflexivity | discriminate].
  - apply (HP packet_only (mkdyn (UserType false true) (Some 7%nat))); reflexivity.
Defined.

(** ** Each facade uses its control handler only *)

Section Observe.
Context {W S H : Type} (h : handler W) (proj : S -> H) (c1 c2 : S).
Hypothesis same : proj c1 = proj c2.

Lemma observe_not_ready (w : W) :
  observe proj (not_ready c1 w) = observe proj (not_ready c2 w).
Proof. unfold observe, not_ready; cbn. rewrite same. reflexivity. Qed.

Lemma observe_delegated (e : osE error) (w : W) :
  observe proj (delegated h e c1 w) = observe proj (delegated h e c2 w).
Proof.
  unfold observe, delegated. destruct (h _ e w) as [err w1]; cbn.
  rewrite same. reflexivity.
Qed.

Lemma observe_delegated_control (e : osE (Z * error)) (opt : rawOpt)
    (store1 store2 : rawOpt -> S) cf on (w : W) :
  (forall o, proj (store1 o) = proj (store2 o)) ->
  observe proj (delegated_control h e opt store1 c1 cf on w) =
  observe proj (delegated_control h e opt store2 c2 cf on w).
Proof.
  intro Hstore. unfold observe, delegated_control.
  destruct (h _ e w) as [[fd [e1|]] w1]; cbn.
  - rewrite same. reflexivity.
  - destruct (h _ (setsockopt_control fd cf on) w1) as [[e2|] w2]; cbn;
      rewrite Hstore; reflexivity.
Qed.
End Observe.

Section Keeps.
Context {W S A : Type} (h : handler W) (proj : S -> A) (c : S).

Lemma keeps_not_ready (w : W) : keeps proj c (not_ready c w).
Proof. intros c' e [= <- _]. reflexivity. Qed.

Lemma keeps_delegated (e : osE error) (w : W) : keeps proj c (delegated h e c w).
Proof.
  unfold keeps, delegated. destruct (h _ e w) as [err w1]; cbn.
  intros c' e' [= <- _]. reflexivity.
Qed.

Lemma keeps_delegated_control (e : osE (Z * error)) (opt : rawOpt)
    (store : rawOpt -> S) cf on (w : W) :
  (forall o, proj (store o) = proj c) ->
  keeps proj c (delegated_control h e opt store c cf on w).
Proof.
  intro Hstore. unfold keeps, delegated_control.
  destruct (h _ e w) as [[fd [e1|]] w1]; cbn.
  - intros c' e' [= <- _]. reflexivity.
  - destruct (h _ (setsockopt_control fd cf on) w1) as [[e2|] w2]; cbn;
      intros c' e' [= <- _]; apply Hstore.
Qed.
End Keeps.

Ltac simple_confined cases nr dl :=
  let c1 := fresh "c" in
  let c2 := fresh "c" in
  let Hh := fresh "Hh" in
  let Hok := fresh "Hok" in
  let d := fresh "d" in
  let Hd := fresh "Hd" in
  split;
  [ intros c1 c2 Hh; destruct (cases c1) as [Hok | [d Hd]];
    [ rewrite !nr by congruence; now apply observe_not_ready
    | rewrite (dl _ _ _ c1 d Hd); rewrite (dl _ _ _ c2 d) by congruence;
      now apply observe_delegated ]
  | intro c1; destruct (cases c1) as [Hok | [d Hd]];
    [ rewrite !nr by assumption; split; apply keeps_not_ready
    | rewrite (dl _ _ _ c1 d Hd); split; apply keeps_delegated ] ].

Section Confined.
Variables (W : Type) (h : handler W) (w : W).

Lemma PacketConn_cases (c : PacketConn) :
  (payloadHandler_ok (Some (PacketConn_payloadHandler c)) = false) \/
  (exists d, payloadHandler_c (PacketConn_payloadHandler c) = Some d).
Proof.
  destruct (payloadHandler_ok (Some (PacketConn_payloadHandler c))) eqn:E.
  - right. now apply payloadHandler_ok_true.
  - now left.
Qed.

Lemma RawConn_cases (c : RawConn) :
  (packetHandler_ok (Some (RawConn_packetHandler c)) = false) \/
  (exists n, packetHandler_c (RawConn_packetHandler c) = Some n).
Proof.
  destruct (packetHandler_ok (Some (RawConn_packetHandler c))) eqn:E.
  - right. now apply packetHandler_ok_true.
  - now left.
Qed.

Lemma PacketConn_SetControlMessage_confined cf on :
  PacketConn_confined h w (fun p => PacketConn_SetControlMessage p cf on).
Proof.
  split.
  - intros c1 c2 Hh. destruct (PacketConn_cases c1) as [Hok | [d Hd]].
    + rewrite !PacketConn_SetControlMessage_not_ready by congruence.
      now apply observe_not_ready.
    + rewrite (PacketConn_SetControlMessage_delegates W h w c1 d Hd).
      rewrite (PacketConn_SetControlMessage_delegates W h w c2 d) by congruence.
      rewrite Hh. apply observe_delegated_control; [exact Hh |].
      intro o. cbn. now rewrite Hh.
  - intro c. destruct (PacketConn_cases c) as [Hok | [d Hd]].
    + rewrite !PacketConn_SetControlMessage_not_ready by assumption.
      split; apply keeps_not_ready.
    + rewrite (PacketConn_SetControlMessage_delegates W h w c d Hd).
      split; apply keeps_delegated_control; reflexivity.
Qed.

Lemma RawConn_SetControlMessage_confined cf on :
  RawConn_confined h w (fun p => RawConn_SetControlMessage p cf on).
Proof.
  split.
  - intros c1 c2 Hh. destruct (RawConn_cases c1) as [Hok | [n Hn]].
    + rewrite !RawConn_SetControlMessage_not_ready by congruence.
      now apply observe_not_ready.
    + rewrite (RawConn_SetControlMessage_delegates W h w c1 n Hn).
      rewrite (RawConn_SetControlMessage_delegates W h w c2 n) by congruence.
      rewrite Hh. apply observe_delegated_control; [exact Hh |].
      intro o. cbn. now rewrite Hh.
  - intro c. destruct (RawConn_cases c) as [Hok | [n Hn]].
    + rewrite !RawConn_SetControlMessage_not_ready by assumption.
      split; apply keeps_not_ready.
    + rewrite (RawConn_SetControlMessage_delegates W h w c n Hn).
      split; apply keeps_delegated_control; reflexivity.
Qed.

Lemma PacketConn_SetDeadline_confined t :
  PacketConn_confined h w (fun p => PacketConn_SetDeadline p t).
Proof.
  simple_confined PacketConn_cases
    PacketConn_SetDeadline_not_ready PacketConn_SetDeadline_delegates.
Qed.

Lemma PacketConn_SetReadDeadline_confined t :
  PacketConn_confined h w (fun p => PacketConn_SetReadDeadline p t).
Proof.
  simple_confined PacketConn_cases
    PacketConn_SetReadDeadline_not_ready PacketConn_SetReadDeadline_delegates.
Qed.

Lemma PacketConn_SetWriteDeadline_confined t :
  PacketConn_confined h w (fun p => PacketConn_SetWriteDeadline p t).
Proof.
  simple_confined PacketConn_cases
    PacketConn_SetWriteDeadline_not_ready PacketConn_SetWriteDeadline_delegates.
Qed.

Lemma PacketConn_Close_confined :
  PacketConn_confined h w PacketConn_Close.
Proof.
  simple_confined PacketConn_cases PacketConn_Close_not_ready PacketConn_Close_delegates.
Qed.

Lemma RawConn_SetDeadline_confined t :
  RawConn_confined h w (fun p => RawConn_SetDeadline p t).
Proof.
  simple_confined RawConn_cases RawConn_SetDeadline_not_ready RawConn_SetDeadline_delegates.
Qed.

Lemma RawConn_SetReadDeadline_confined t :
  RawConn_confined h w (fun p => RawConn_SetReadDeadline p t).
Proof.
  simple_confined RawConn_cases
    RawConn_SetReadDeadline_not_ready RawConn_SetReadDeadline_delegates.
Qed.

Lemma RawConn_SetWriteDeadline_confined t :
  RawConn_confined h w (fun p => RawConn_SetWriteDeadline p t).
Proof.
  simple_confined RawConn_cases
    RawConn_SetWriteDeadline_not_ready RawConn_SetWriteDeadline_delegates.
Qed.

Lemma RawConn_Close_confined :
  RawConn_confined h w RawConn_Close.
Proof.
  simple_confined RawConn_cases RawConn_Close_not_ready RawConn_Close_delegates.
Qed.
End Confined.

(** C10.  Every public method of PacketConn reads and writes the payload
    handler only, and every public method of RawConn the packet handler
    only: receivers that agree on the handler and differ in genericOpt and
    dgramOpt give the same error, leave the same handler, make the same OS
    calls and leave the same world, against every OS; and genericOpt and
    dgramOpt of the receiver are never changed. *)
Theorem facade_confined_to_its_handler :
  forall (W : Type) (h : handler W) (w : W) (cf : ControlFlags) (on : bool) (t : time),
    PacketConn_confined h w (fun p => PacketConn_SetControlMessage p cf on) /\
    PacketConn_confined h w (fun p => PacketConn_SetDeadline p t) /\
    PacketConn_confined h w (fun p => PacketConn_SetReadDeadline p t) /\
    PacketConn_confined h w (fun p => PacketConn_SetWriteDeadline p t) /\
    PacketConn_confined h w PacketConn_Close /\
    RawConn_confined h w (fun p => RawConn_SetControlMessage p cf on) /\
    RawConn_confined h w (fun p => RawConn_SetDeadline p t) /\
    RawConn_confined h w (fun p => RawConn_SetReadDeadline p t) /\
    RawConn_confined h w (fun p => RawConn_SetWriteDeadline p t) /\
    RawConn_confined h w RawConn_Close.
Proof.
  intros W h w cf on t.
  repeat match goal with |- _ /\ _ => split end.
  - apply PacketConn_SetControlMessage_confined.
  - apply PacketConn_SetDeadline_confined.
  - apply PacketConn_SetReadDeadline_confined.
  - apply PacketConn_SetWriteDeadline_confined.
  - apply PacketConn_Close_confined.
  - apply RawConn_SetControlMessage_confined.
  - apply RawConn_SetDeadline_confined.
  - apply RawConn_SetReadDeadline_confined.
  - apply RawConn_SetWriteDeadline_confined.
  - apply RawConn_Close_confined.
Qed.

(** On the reference OS, SetControlMessage on two receivers that share the
    payload handler: same error, same handler afterwards, same calls. *)
Lemma facade_confined_to_its_handler_witness :
  observe PacketConn_payloadHandler
    (run mock (PacketConn_SetControlMessage (Some udp1_PacketConn) 3 true) fresh) =
  observe PacketConn_payloadHandler
    (run mock (PacketConn_SetControlMessage (Some udp1_mixed) 3 true) fresh) /\
  result (run mock (PacketConn_SetControlMessage (Some udp1_mixed) 3 true) fresh) =
    Returned (PacketConn_with_rawOpt udp1_mixed (mk_rawOpt 3), nil_error).
Proof.
  split; [| reflexivity].
  exact (proj1 (proj1 (facade_confined_to_its_handler mockOS mock fresh 3 true 0))
           udp1_PacketConn udp1_mixed eq_refl).
Defined.

(** ** Nil receivers *)

(** A method called through a nil receiver pointer panics when it selects
    the control handler, before the guard and before any OS call. *)
Remark nil_receiver_panics :
  forall (W : Type) (h : handler W) (w : W) (t : time),
    run h (PacketConn_SetDeadline None t) w = mkfinal (Panicked NilDereference) w [] /\
    run h (PacketConn_Close None) w = mkfinal (Panicked NilDereference) w [] /\
    run h (RawConn_SetDeadline None t) w = mkfinal (Panicked NilDereference) w [] /\
    run h (RawConn_Close None) w = mkfinal (Panicked NilDereference) w [].
Proof. intros; repeat split. Qed.

(** ** Sequences of method calls on one endpoint *)

(** An invariant of the receiver that every single call keeps is kept by
    every sequence of calls; so are a property of each OS call made and
    bounds on a count of the OS calls made. *)
Section Sequence.
Context {W S : Type} (h : handler W) (call : method -> option S -> prog (S * error)).
Variables (Inv : S -> Prop) (Good : oscall -> bool).
Variables (weight : oscall -> nat) (lo hi : method -> nat).
Hypothesis step :
  forall (m : method) (c : S) (w : W),
    Inv c ->
    exists (c' : S) (e : error),
      result (run h (call m (Some c)) w) = Returned (c', e) /\
      Inv c' /\
      forallb Good (calls (run h (call m (Some c)) w)) = true /\
      (lo m <= list_sum (map weight (calls (run h (call m (Some c)) w))) <= hi m)%nat.

Lemma call_all_invariant (ms : list method) :
  forall (c : S) (w : W),
    Inv c ->
    exists (c' : S) (es : list error),
      result (run h (call_all call ms c) w) = Returned (c', es) /\
      Inv c' /\
      List.length es = List.length ms /\
      forallb Good (calls (run h (call_all call ms c) w)) = true /\
      (list_sum (map lo ms)
       <= list_sum (map weight (calls (run h (call_all call ms c) w)))
       <= list_sum (map hi ms))%nat.
Proof.
  induction ms as [|m ms IH]; intros c w Hc.
  - exists c, []. cbn. repeat split; auto.
  - cbn [call_all]. rewrite run_bind. unfold then_run.
    destruct (step m c w Hc) as (c1 & e1 & Hr1 & Hc1 & Hg1 & Hw1).
    set (f1 := run h (call m (Some c)) w) in *.
    rewrite Hr1. cbn [fst snd result world calls].
    rewrite run_bind. unfold then_run.
    destruct (IH c1 (world f1) Hc1) as (c2 & es & Hr2 & Hc2 & Hlen & Hg2 & Hw2).
    set (f2 := run h (call_all call ms c1) (world f1)) in *.
    rewrite Hr2. cbn [fst snd result world calls run].
    exists c2, (e1 :: es). rewrite app_nil_r.
    repeat split.
    + exact Hc2.
    + cbn. now rewrite Hlen.
    + rewrite forallb_app, Hg1, Hg2. reflexivity.
    + rewrite map_app, list_sum_app.
      change (list_sum (map lo (m :: ms))) with (lo m + list_sum (map lo ms))%nat.
      lia.
    + rewrite map_app, list_sum_app.
      change (list_sum (map hi (m :: ms))) with (hi m + list_sum (map hi ms))%nat.
      lia.
Qed.
End Sequence.

(** A receiver on which every method stops at the guard: every sequence
    of calls leaves it and the world as they are and makes no OS call. *)
Lemma call_all_not_ready {W S : Type} (h : handler W)
    (call : method -> option S -> prog (S * error)) (c : S) :
  (forall (m : method) (w : W), run h (call m (Some c)) w = not_ready c w) ->
  forall (ms : list method) (w : W),
    run h (call_all call ms c) w =
    mkfinal (Returned (c, repeat EINVAL (List.length ms))) w [].
Proof.
  intros Hstep ms. induction ms as [|m ms IH]; intro w.
  - reflexivity.
  - cbn [call_all]. rewrite run_bind, Hstep. unfold then_run, not_ready.
    cbn [fst snd result world calls].
    rewrite run_bind, IH. reflexivity.
Qed.

Lemma concrete_eqb_refl (t : concrete) : concrete_eqb t t = true.
Proof. destruct t as [ | | | | [|] [|]]; reflexivity. Qed.

Lemma dyn_eqb_refl (d : dyn) : dyn_eqb d d = true.
Proof.
  destruct d as [t [n|]]; unfold dyn_eqb; cbn; rewrite concrete_eqb_refl; cbn.
  - apply Nat.eqb_refl.
  - reflexivity.
Qed.

Lemma concrete_eqb_eq (a b : concrete) : concrete_eqb a b = true -> a = b.
Proof.
  destruct a as [ | | | | [|] [|]], b as [ | | | | [|] [|]]; cbn;
    intro H; try discriminate H; reflexivity.
Qed.

Lemma dyn_eqb_eq (a b : dyn) : dyn_eqb a b = true -> a = b.
Proof.
  destruct a as [ta pa], b as [tb pb]; unfold dyn_eqb; cbn.
  intro H. apply andb_prop in H as [Ht Hp].
  apply concrete_eqb_eq in Ht. subst tb. f_equal.
  destruct pa as [n|], pb as [m|]; cbn in Hp; try discriminate Hp; [| reflexivity].
  apply Nat.eqb_eq in Hp. now subst.
Qed.

Lemma direct_as_sum (l : list oscall) : list_sum (map one_if_direct l) = direct l.
Proof.
  unfold direct. induction l as [|c l IH]; [reflexivity |].
  change (list_sum (map one_if_direct (c :: l)))
    with (one_if_direct c + list_sum (map one_if_direct l))%nat.
  rewrite IH. unfold one_if_direct. cbn [filter].
  destruct (is_direct_call c); reflexivity.
Qed.

Lemma closes_as_sum (l : list oscall) : list_sum (map one_if_close l) = closes l.
Proof.
  unfold closes. induction l as [|c l IH]; [reflexivity |].
  change (list_sum (map one_if_close (c :: l)))
    with (one_if_close c + list_sum (map one_if_close l))%nat.
  rewrite IH. unfold one_if_close. cbn [filter].
  destruct (is_Conn_Close c); reflexivity.
Qed.

Lemma count_M_Close (ms : list method) :
  list_sum (map (fun m => if is_M_Close m then 1 else 0)%nat ms)
  = List.length (filter is_M_Close ms).
Proof.
  induction ms as [|m ms IH]; [reflexivity |].
  change (list_sum (map (fun m => if is_M_Close m then 1 else 0)%nat (m :: ms)))
    with ((if is_M_Close m then 1 else 0)
          + list_sum (map (fun m => if is_M_Close m then 1 else 0) ms))%nat.
  rewrite IH. cbn [filter]. destruct (is_M_Close m); reflexivity.
Qed.

Lemma sum_of_ones (ms : list method) :
  list_sum (map (fun _ => 1%nat) ms) = List.length ms.
Proof.
  induction ms as [|m ms IH]; [reflexivity |].
  change (list_sum (map (fun _ => 1%nat) (m :: ms)))
    with (1 + list_sum (map (fun _ : method => 1) ms))%nat.
  rewrite IH. reflexivity.
Qed.

Lemma one_call_delegated {W S : Type} (h : handler W) (d : dyn) (m : method)
    (e : osE error) (c : S) (w : W) :
  concerns d (Call e) = true ->
  is_direct_call (Call e) = true ->
  is_Conn_Close (Call e) = is_M_Close m ->
  exists err, one_call_on d m (delegated h e c w) c err.
Proof.
  intros Hd Hm Hc. unfold delegated. destruct (h _ e w) as [err w1].
  exists err. unfold one_call_on, closes, direct. cbn [result calls forallb filter].
  rewrite Hd, Hm, Hc. repeat split; destruct (is_M_Close m); reflexivity.
Qed.

Lemma one_call_delegated_control {W S : Type} (h : handler W) (d : dyn)
    (e : osE (Z * error)) (opt : rawOpt) (store : rawOpt -> S) (c : S) cf on (w : W) :
  concerns d (Call e) = true ->
  is_direct_call (Call e) = true ->
  is_Conn_Close (Call e) = false ->
  exists (c' : S) (err : error),
    one_call_on d (M_SetControlMessage cf on) (delegated_control h e opt store c cf on w) c' err /\
    (c' = c \/ exists o : rawOpt, c' = store o).
Proof.
  intros Hd Hm Hc. unfold delegated_control.
  destruct (h _ e w) as [[fd [e1|]] w1].
  - exists c, (Some e1). split; [| now left].
    unfold one_call_on, closes, direct. cbn [result calls forallb filter].
    rewrite Hd, Hm, Hc. repeat split.
  - rewrite run_setControlMessage.
    destruct (h _ (setsockopt_control fd cf on) w1) as [err w2].
    cbn [result world calls fst snd].
    eexists _, err. split; [| right; eexists; reflexivity].
    unfold one_call_on, closes, direct. cbn [result calls forallb filter].
    rewrite Hd, Hm, Hc. repeat split.
Qed.

Section ReadyStep.
Variables (W : Type) (h : handler W) (w : W) (g : genericOpt) (dg : dgramOpt).

Lemma PacketConn_call_ready (d : dyn) (c : PacketConn) (m : method) :
  PacketConn_wraps d g dg c ->
  exists (c' : PacketConn) (e : error),
    one_call_on d m (run h (PacketConn_call m (Some c)) w) c' e /\
    PacketConn_wraps d g dg c'.
Proof.
  intros Hw. pose proof Hw as (Hd & Hg & Hdg).
  pose proof (dyn_eqb_refl d) as Hrefl.
  destruct m as [cf on | t | t | t | ]; cbn [PacketConn_call].
  - rewrite (PacketConn_SetControlMessage_delegates W h w c d Hd).
    destruct (one_call_delegated_control h d (sysfd_payloadHandler (Some d))
                (payloadHandler_rawOpt (PacketConn_payloadHandler c))
                (PacketConn_with_rawOpt c) c cf on w)
      as (c' & err & Hone & Hc'); [exact Hrefl | reflexivity | reflexivity |].
    exists c', err. split; [exact Hone |].
    destruct Hc' as [-> | [o ->]]; [exact Hw |].
    unfold PacketConn_wraps. cbn. auto.
  - rewrite (PacketConn_SetDeadline_delegates W h w c d Hd).
    destruct (one_call_delegated h d (M_SetDeadline t) (Conn_SetDeadline d t) c w)
      as [err Hone]; [exact Hrefl | reflexivity | reflexivity |]. eauto.
  - rewrite (PacketConn_SetReadDeadline_delegates W h w c d Hd).
    destruct (one_call_delegated h d (M_SetReadDeadline t) (Conn_SetReadDeadline d t) c w)
      as [err Hone]; [exact Hrefl | reflexivity | reflexivity |]. eauto.
  - rewrite (PacketConn_SetWriteDeadline_delegates W h w c d Hd).
    destruct (one_call_delegated h d (M_SetWriteDeadline t) (Conn_SetWriteDeadline d t) c w)
      as [err Hone]; [exact Hrefl | reflexivity | reflexivity |]. eauto.
  - rewrite (PacketConn_Close_delegates W h w c d Hd).
    destruct (one_call_delegated h d M_Close (Conn_Close d) c w)
      as [err Hone]; [exact Hrefl | reflexivity | reflexivity |]. eauto.
Qed.

Lemma RawConn_call_ready (n : nat) (c : RawConn) (m : method) :
  RawConn_wraps n g dg c ->
  exists (c' : RawConn) (e : error),
    one_call_on (IPConn_recv (Some n)) m (run h (RawConn_call m (Some c)) w) c' e /\
    RawConn_wraps n g dg c'.
Proof.
  intros Hw. pose proof Hw as (Hn & Hg & Hdg).
  set (d := IPConn_recv (Some n)).
  pose proof (dyn_eqb_refl d) as Hrefl.
  destruct m as [cf on | t | t | t | ]; cbn [RawConn_call].
  - rewrite (RawConn_SetControlMessage_delegates W h w c n Hn).
    destruct (one_call_delegated_control h d (sysfd_packetHandler (Some n))
                (packetHandler_rawOpt (RawConn_packetHandler c))
                (RawConn_with_rawOpt c) c cf on w)
      as (c' & err & Hone & Hc'); [exact Hrefl | reflexivity | reflexivity |].
    exists c', err. split; [exact Hone |].
    destruct Hc' as [-> | [o ->]]; [exact Hw |].
    unfold RawConn_wraps. cbn. auto.
  - rewrite (RawConn_SetDeadline_delegates W h w c n Hn).
    destruct (one_call_delegated h d (M_SetDeadline t) (Conn_SetDeadline d t) c w)
      as [err Hone]; [exact Hrefl | reflexivity | reflexivity |]. eauto.
  - rewrite (RawConn_SetReadDeadline_delegates W h w c n Hn).
    destruct (one_call_delegated h d (M_SetReadDeadline t) (Conn_SetReadDeadline d t) c w)
      as [err Hone]; [exact Hrefl | reflexivity | reflexivity |]. eauto.
  - rewrite (RawConn_SetWriteDeadline_delegates W h w c n Hn).
    destruct (one_call_delegated h d (M_SetWriteDeadline t) (Conn_SetWriteDeadline d t) c w)
      as [err Hone]; [exact Hrefl | reflexivity | reflexivity |]. eauto.
  - rewrite (RawConn_Close_delegates W h w c n Hn).
    destruct (one_call_delegated h d M_Close (Conn_Close d) c w)
      as [err Hone]; [exact Hrefl | reflexivity | reflexivity |]. eauto.
Qed.
End ReadyStep.

Section ReadySequence.
Context {W S : Type} (h : handler W) (call : method -> option S -> prog (S * error)).
Variables (d : dyn) (Inv : S -> Prop).
Hypothesis step :
  forall (m : method) (c : S) (w : W),
    Inv c ->
    exists (c' : S) (e : error),
      one_call_on d m (run h (call m (Some c)) w) c' e /\ Inv c'.

Lemma ready_sequence (ms : list method) (c : S) (w : W) :
  Inv c ->
  exists (c' : S) (es : list error),
    result (run h (call_all call ms c) w) = Returned (c', es) /\
    Inv c' /\
    List.length es = List.length ms /\
    forallb (concerns d) (calls (run h (call_all call ms c) w)) = true /\
    direct (calls (run h (call_all call ms c) w)) = List.length ms /\
    closes (calls (run h (call_all call ms c) w)) = List.length (filter is_M_Close ms).
Proof.
  intro Hc.
  destruct (call_all_invariant h call Inv (concerns d) one_if_direct
              (fun _ => 1%nat) (fun _ => 1%nat))
    with (ms := ms) (c := c) (w := w)
    as (c1 & es1 & Hr1 & Hi1 & Hl1 & Hg1 & Hb1); [| exact Hc |].
  { intros m x v Hx. destruct (step m x v Hx) as (c' & e & (Hr & Hg & Hb & _) & Hi).
    exists c', e. rewrite direct_as_sum, Hb. auto. }
  destruct (call_all_invariant h call Inv (concerns d) one_if_close
              (fun m => if is_M_Close m then 1 else 0)%nat
              (fun m => if is_M_Close m then 1 else 0)%nat)
    with (ms := ms) (c := c) (w := w)
    as (c2 & es2 & Hr2 & _ & _ & _ & Hb2); [| exact Hc |].
  { intros m x v Hx. destruct (step m x v Hx) as (c' & e & (Hr & Hg & _ & Hcl) & Hi).
    exists c', e. rewrite closes_as_sum, Hcl. repeat split; auto. }
  exists c1, es1.
  rewrite direct_as_sum, sum_of_ones in Hb1.
  rewrite closes_as_sum, count_M_Close in Hb2.
  repeat split; try assumption; lia.
Qed.
End ReadySequence.



Example demo_calls_on_udp1 :
  run mock (call_all PacketConn_call demo_calls udp1_PacketConn) fresh =
  mkfinal
    (Returned (PacketConn_with_rawOpt udp1_PacketConn (mk_rawOpt 3),
               [nil_error; nil_error; nil_error; errClosing; errClosing]))
    (mk_mockOS [1%nat] [(4, 3, true)] [] [] [])
    [Call (Conn_SetDeadline (mkdyn UDPConnPtr (Some 1%nat)) 1);
     Call (sysfd_payloadHandler udp1);
     Call (setsockopt_control 4 3 true);
     Call (Conn_Close (mkdyn UDPConnPtr (Some 1%nat)));
     Call (Conn_SetReadDeadline (mkdyn UDPConnPtr (Some 1%nat)) 2);
     Call (Conn_Close (mkdyn UDPConnPtr (Some 1%nat)))].
Proof. reflexivity. Qed.

Lemma PacketConn_calls_not_ready {W : Type} (h : handler W) (c : PacketConn) :
  payloadHandler_ok (Some (PacketConn_payloadHandler c)) = false ->
  forall (ms : list method) (w : W),
    run h (call_all PacketConn_call ms c) w =
    mkfinal (Returned (c, repeat EINVAL (List.length ms))) w [].
Proof.
  intro Hok. apply call_all_not_ready. intros [cf on | t | t | t | ] w; cbn [PacketConn_call].
  - now apply PacketConn_SetControlMessage_not_ready.
  - now apply PacketConn_SetDeadline_not_ready.
  - now apply PacketConn_SetReadDeadline_not_ready.
  - now apply PacketConn_SetWriteDeadline_not_ready.
  - now apply PacketConn_Close_not_ready.
Qed.

Lemma RawConn_calls_not_ready {W : Type} (h : handler W) (c : RawConn) :
  packetHandler_ok (Some (RawConn_packetHandler c)) = false ->
  forall (ms : list method) (w : W),
    run h (call_all RawConn_call ms c) w =
    mkfinal (Returned (c, repeat EINVAL (List.length ms))) w [].
Proof.
  intro Hok. apply call_all_not_ready. intros [cf on | t | t | t | ] w; cbn [RawConn_call].
  - now apply RawConn_SetControlMessage_not_ready.
  - now apply RawConn_SetDeadline_not_ready.
  - now apply RawConn_SetReadDeadline_not_ready.
  - now apply RawConn_SetWriteDeadline_not_ready.
  - now apply RawConn_Close_not_ready.
Qed.

(** X2.  An endpoint that is not ready stays so.  On a PacketConn or RawConn
    whose handler's [ok()] is false, every sequence of method calls returns
    [EINVAL] for each call, leaves the receiver and the world as they were
    and makes no OS call: no method can bring the endpoint to the ready
    state. *)
Theorem not_ready_is_absorbing :
  forall (W : Type) (h : handler W) (w : W) (ms : list method),
    (forall c : PacketConn,
        payloadHandler_ok (Some (PacketConn_payloadHandler c)) = false ->
        run h (call_all PacketConn_call ms c) w =
        mkfinal (Returned (c, repeat EINVAL (List.length ms))) w []) /\
    (forall c : RawConn,
        packetHandler_ok (Some (RawConn_packetHandler c)) = false ->
        run h (call_all RawConn_call ms c) w =
        mkfinal (Returned (c, repeat EINVAL (List.length ms))) w []).
Proof.
  intros W h w ms. split; intros c Hok.
  - now apply PacketConn_calls_not_ready.
  - now apply RawConn_calls_not_ready.
Qed.

Lemma not_ready_is_absorbing_witness :
  run mock (call_all PacketConn_call demo_calls zero_PacketConn) fresh =
    mkfinal (Returned (zero_PacketConn, [EINVAL; EINVAL; EINVAL; EINVAL; EINVAL])) fresh [] /\
  run mock (call_all RawConn_call demo_calls zero_RawConn) fresh =
    mkfinal (Returned (zero_RawConn, [EINVAL; EINVAL; EINVAL; EINVAL; EINVAL])) fresh [].
Proof.
  destruct (not_ready_is_absorbing mockOS mock fresh demo_calls) as [HP HR]. split.
  - exact (HP zero_PacketConn eq_refl).
  - exact (HR zero_RawConn eq_refl).
Defined.

(** X3.  Only Close closes the connection.  In every sequence of method calls
    on a PacketConn or a RawConn, the wrapped connection's Close is called at
    most as many times as the method Close, and on a ready endpoint exactly
    as many times: Close is forwarded every time, also on a connection that
    was closed before, and no other method closes the connection. *)
Theorem only_Close_closes :
  forall (W : Type) (h : handler W) (w : W) (ms : list method),
    (forall c : PacketConn,
        (closes (calls (run h (call_all PacketConn_call ms c) w))
         <= List.length (filter is_M_Close ms))%nat /\
        (payloadHandler_ok (Some (PacketConn_payloadHandler c)) = true ->
         closes (calls (run h (call_all PacketConn_call ms c) w))
         = List.length (filter is_M_Close ms))) /\
    (forall c : RawConn,
        (closes (calls (run h (call_all RawConn_call ms c) w))
         <= List.length (filter is_M_Close ms))%nat /\
        (packetHandler_ok (Some (RawConn_packetHandler c)) = true ->
         closes (calls (run h (call_all RawConn_call ms c) w))
         = List.length (filter is_M_Close ms))).
Proof.
  intros W h w ms. split; intro c.
  - destruct (PacketConn_cases c) as [Hok | [d Hd]].
    + rewrite (PacketConn_calls_not_ready h c Hok). cbn [calls]. split; [cbn; lia |].
      intro H. rewrite H in Hok. discriminate Hok.
    + destruct (ready_sequence h PacketConn_call d
                  (PacketConn_wraps d (PacketConn_genericOpt c) (PacketConn_dgramOpt c))
                  (fun m x v => PacketConn_call_ready W h v _ _ d x m) ms c w)
        as (c' & es & _ & _ & _ & _ & _ & Hcl); [repeat split; exact Hd |].
      rewrite Hcl. split; [lia | reflexivity].
  - destruct (RawConn_cases c) as [Hok | [n Hn]].
    + rewrite (RawConn_calls_not_ready h c Hok). cbn [calls]. split; [cbn; lia |].
      intro H. rewrite H in Hok. discriminate Hok.
    + destruct (ready_sequence h RawConn_call (IPConn_recv (Some n))
                  (RawConn_wraps n (RawConn_genericOpt c) (RawConn_dgramOpt c))
                  (fun m x v => RawConn_call_ready W h v _ _ n x m) ms c w)
        as (c' & es & _ & _ & _ & _ & _ & Hcl); [repeat split; exact Hn |].
      rewrite Hcl. split; [lia | reflexivity].
Qed.

Lemma only_Close_closes_witness :
  closes (calls (run mock (call_all PacketConn_call demo_calls udp1_PacketConn) fresh)) = 2%nat.
Proof.
  exact (proj2 (proj1 (only_Close_closes mockOS mock fresh demo_calls) udp1_PacketConn)
           eq_refl).
Defined.

(** X4.  One call per method, no retries.  Of the OS calls that a sequence of
    method calls on a PacketConn or a RawConn makes, those made by the methods
    themselves (a method of the wrapped connection, or the descriptor lookup;
    not the option updates inside setControlMessage) are at most as many as
    the method calls, whatever the OS answers, and on a ready endpoint exactly
    as many. *)
Theorem one_direct_call_per_method :
  forall (W : Type) (h : handler W) (w : W) (ms : list method),
    (forall c : PacketConn,
        (direct (calls (run h (call_all PacketConn_call ms c) w)) <= List.length ms)%nat /\
        (payloadHandler_ok (Some (PacketConn_payloadHandler c)) = true ->
         direct (calls (run h (call_all PacketConn_call ms c) w)) = List.length ms)) /\
    (forall c : RawConn,
        (direct (calls (run h (call_all RawConn_call ms c) w)) <= List.length ms)%nat /\
        (packetHandler_ok (Some (RawConn_packetHandler c)) = true ->
         direct (calls (run h (call_all RawConn_call ms c) w)) = List.length ms)).
Proof.
  intros W h w ms. split; intro c.
  - destruct (PacketConn_cases c) as [Hok | [d Hd]].
    + rewrite (PacketConn_calls_not_ready h c Hok). cbn [calls]. split; [cbn; lia |].
      intro H. rewrite H in Hok. discriminate Hok.
    + destruct (ready_sequence h PacketConn_call d
                  (PacketConn_wraps d (PacketConn_genericOpt c) (PacketConn_dgramOpt c))
                  (fun m x v => PacketConn_call_ready W h v _ _ d x m) ms c w)
        as (c' & es & _ & _ & _ & _ & Hb & _); [repeat split; exact Hd |].
      rewrite Hb. split; [lia | reflexivity].
  - destruct (RawConn_cases c) as [Hok | [n Hn]].
    + rewrite (RawConn_calls_not_ready h c Hok). cbn [calls]. split; [cbn; lia |].
      intro H. rewrite H in Hok. discriminate Hok.
    + destruct (ready_sequence h RawConn_call (IPConn_recv (Some n))
                  (RawConn_wraps n (RawConn_genericOpt c) (RawConn_dgramOpt c))
                  (fun m x v => RawConn_call_ready W h v _ _ n x m) ms c w)
        as (c' & es & _ & _ & _ & _ & Hb & _); [repeat split; exact Hn |].
      rewrite Hb. split; [lia | reflexivity].
Qed.

Lemma one_direct_call_per_method_witness :
  direct (calls (run mock (call_all RawConn_call demo_calls ip2_RawConn) fresh)) = 5%nat.
Proof.
  exact (proj2 (proj2 (one_direct_call_per_method mockOS mock fresh demo_calls) ip2_RawConn)
           eq_refl).
Defined.

(** ** Constructors followed by calls *)

Lemma run_NewPacketConn {W : Type} (h : handler W) (w : W) (c : net_PacketConn) :
  run h (NewPacketConn c) w =
  mkfinal
    (match c with
     | Some d =>
         if implements_Conn (dtype d) then Returned (Some (PacketConn_over c))
         else Panicked InterfaceConversion
     | None => Panicked InterfaceConversion
     end) w [].
Proof.
  destruct c as [d|]; [| reflexivity].
  unfold NewPacketConn, assert_net_Conn. destruct (implements_Conn (dtype d)); reflexivity.
Qed.


Lemma run_NewRawConn_IPConn {W : Type} (h : handler W) (w : W) (ip : ptr) :
  let c := Some (mkdyn IPConnPtr ip) in
  run h (NewRawConn c) w =
  let (x, w1) := h _ (sysfd_packetHandler ip) w in
  let (fd, err) := x in
  match err with
  | Some _ => mkfinal (Returned (None, err)) w1 [Call (sysfd_packetHandler ip)]
  | None =>
      let (err2, w2) := h _ (setIPv4HeaderPrepend fd true) w1 in
      mkfinal
        (Returned (match err2 with
                   | Some _ => None
                   | None => Some (mk_RawConn (mk_genericOpt c) (mk_dgramOpt c)
                                     (mk_packetHandler ip rawOpt_zero))
                   end, err2))
        w2 [Call (sysfd_packetHandler ip); Call (setIPv4HeaderPrepend fd true)]
  end.
Proof.
  cbv zeta. unfold NewRawConn. cbn.
  destruct (h _ (sysfd_packetHandler ip) w) as [[fd [e|]] w1]; [reflexivity |].
  cbn. destruct (h _ (setIPv4HeaderPrepend fd true) w1) as [[e|] w2]; reflexivity.
Qed.

Lemma run_NewRawConn_other {W : Type} (h : handler W) (w : W) (c : net_PacketConn) :
  (forall ip : ptr, c <> Some (mkdyn IPConnPtr ip)) ->
  run h (NewRawConn c) w = mkfinal (Panicked InterfaceConversion) w [].
Proof.
  intro Hc. destruct c as [[ty ip]|]; [| reflexivity].
  destruct ty as [ | | | | [|] hp]; try reflexivity.
  exfalso. now apply (Hc ip).
Qed.

Lemma NewRawConn_kind (c : net_PacketConn) :
  (exists ip : ptr, c = Some (mkdyn IPConnPtr ip)) \/
  (forall ip : ptr, c <> Some (mkdyn IPConnPtr ip)).
Proof.
  destruct c as [[ty ip]|]; [| right; discriminate].
  destruct ty; try (right; discriminate). left. now exists ip.
Qed.

(** X6.  NewRawConn returns a RawConn or an error, never both and never
    neither.  Whenever it returns, the RawConn is nil exactly when the error
    is non-nil. *)
Theorem NewRawConn_endpoint_xor_error :
  forall (W : Type) (h : handler W) (w : W) (c : net_PacketConn)
         (r : option RawConn) (e : error),
    result (run h (NewRawConn c) w) = Returned (r, e) ->
    (r = None /\ e <> None) \/ (r <> None /\ e = None).
Proof.
  intros W h w c r e.
  destruct (NewRawConn_kind c) as [[ip ->] | Hc].
  - rewrite (run_NewRawConn_IPConn h w ip).
    destruct (h _ (sysfd_packetHandler ip) w) as [[fd [e1|]] w1]; cbn.
    + intros [= <- <-]. left. split; [reflexivity | discriminate].
    + destruct (h _ (setIPv4HeaderPrepend fd true) w1) as [[e2|] w2]; cbn;
        intros [= <- <-].
      * left. split; [reflexivity | discriminate].
      * right. split; [discriminate | reflexivity].
  - rewrite (run_NewRawConn_other h w c Hc). discriminate.
Qed.

Lemma NewRawConn_endpoint_xor_error_witness :
  (Some ip2_RawConn = None /\ nil_error <> None) \/
  (Some ip2_RawConn <> None /\ nil_error = None).
Proof.
  exact (NewRawConn_endpoint_xor_error mockOS mock fresh ip2
           (Some ip2_RawConn) nil_error eq_refl).
Defined.

(** X7.  The guard does not protect the result of a failed NewRawConn.  When
    NewRawConn returns a nil RawConn, with its error, a method called on
    that result panics on the nil receiver instead of returning [EINVAL]; it
    makes no OS call beyond those of the construction. *)
Theorem call_on_failed_NewRawConn_panics :
  forall (W : Type) (h : handler W) (w : W) (c : net_PacketConn) (m : method) (e : error),
    result (run h (NewRawConn c) w) = Returned (None, e) ->
    run h (r <- NewRawConn c ;; RawConn_call m (fst r)) w =
    mkfinal (Panicked NilDereference)
      (world (run h (NewRawConn c) w)) (calls (run h (NewRawConn c) w)).
Proof.
  intros W h w c m e Hr. rewrite run_bind. unfold then_run. rewrite Hr.
  cbn [fst]. destruct m; cbn; rewrite app_nil_r; reflexivity.
Qed.

Lemma call_on_failed_NewRawConn_panics_witness :
  run mock (r <- NewRawConn ip2 ;; RawConn_call M_Close (fst r)) (mk_mockOS [] [] [] [] [5]) =
  mkfinal (Panicked NilDereference) (mk_mockOS [] [] [] [] [5])
    [Call (sysfd_packetHandler (Some 2%nat)); Call (setIPv4HeaderPrepend 5 true)].
Proof.
  exact (call_on_failed_NewRawConn_panics mockOS mock (mk_mockOS [] [] [] [] [5]) ip2
           M_Close EPERM eq_refl).
Defined.

(** X8.  A PacketConn and a RawConn over the same IP connection behave alike
    for deadlines and Close.  When the payload handler of the one holds the
    non-nil [*net.IPConn] that the packet handler of the other holds,
    SetDeadline, SetReadDeadline, SetWriteDeadline and Close return the same
    error, make the same OS call and leave the same world. *)
Theorem facades_agree_on_IPConn :
  forall (W : Type) (h : handler W) (w : W) (n : nat)
         (pc : PacketConn) (rc : RawConn) (m : method),
    payloadHandler_c (PacketConn_payloadHandler pc) = Some (mkdyn IPConnPtr (Some n)) ->
    packetHandler_c (RawConn_packetHandler rc) = Some n ->
    is_M_SetControlMessage m = false ->
    outward (run h (PacketConn_call m (Some pc)) w) =
    outward (run h (RawConn_call m (Some rc)) w).
Proof.
  intros W h w n pc rc m Hp Hr Hm.
  destruct m as [cf on | t | t | t | ]; [discriminate Hm | | | |];
    cbn [PacketConn_call RawConn_call].
  - rewrite (PacketConn_SetDeadline_delegates W h w pc _ Hp),
            (RawConn_SetDeadline_delegates W h w rc n Hr).
    unfold outward, delegated, IPConn_recv.
    destruct (h _ (Conn_SetDeadline (mkdyn IPConnPtr (Some n)) t) w); reflexivity.
  - rewrite (PacketConn_SetReadDeadline_delegates W h w pc _ Hp),
            (RawConn_SetReadDeadline_delegates W h w rc n Hr).
    unfold outward, delegated, IPConn_recv.
    destruct (h _ (Conn_SetReadDeadline (mkdyn IPConnPtr (Some n)) t) w); reflexivity.
  - rewrite (PacketConn_SetWriteDeadline_delegates W h w pc _ Hp),
            (RawConn_SetWriteDeadline_delegates W h w rc n Hr).
    unfold outward, delegated, IPConn_recv.
    destruct (h _ (Conn_SetWriteDeadline (mkdyn IPConnPtr (Some n)) t) w); reflexivity.
  - rewrite (PacketConn_Close_delegates W h w pc _ Hp),
            (RawConn_Close_delegates W h w rc n Hr).
    unfold outward, delegated, IPConn_recv.
    destruct (h _ (Conn_Close (mkdyn IPConnPtr (Some n))) w); reflexivity.
Qed.

Lemma facades_agree_on_IPConn_witness :
  outward (run mock (PacketConn_call M_Close (Some (PacketConn_over ip2))) fresh) =
  outward (run mock (RawConn_call M_Close (Some ip2_RawConn)) fresh).
Proof.
  exact (facades_agree_on_IPConn mockOS mock fresh 2%nat (PacketConn_over ip2) ip2_RawConn
           M_Close eq_refl eq_refl eq_refl).
Defined.

(** X9.  The constructors never call a method of the connection.  NewConn and
    NewPacketConn make no OS call at all and leave the world as it is, for
    every input, also when NewPacketConn panics.  NewRawConn makes at most two
    OS calls, none of them a method of the connection: in particular it does
    not close the connection when construction fails, so the connection stays
    with the caller. *)
Theorem constructors_leave_the_connection_alone :
  forall (W : Type) (h : handler W) (w : W) (c : iface),
    (calls (run h (NewConn c) w) = [] /\ world (run h (NewConn c) w) = w) /\
    (calls (run h (NewPacketConn c) w) = [] /\ world (run h (NewPacketConn c) w) = w) /\
    (existsb is_Conn_method (calls (run h (NewRawConn c) w)) = false /\
     closes (calls (run h (NewRawConn c) w)) = 0%nat /\
     (List.length (calls (run h (NewRawConn c) w)) <= 2)%nat).
Proof.
  intros W h w c. split; [| split].
  - split; reflexivity.
  - rewrite run_NewPacketConn. split; reflexivity.
  - destruct (NewRawConn_kind c) as [[ip ->] | Hc].
    + rewrite (run_NewRawConn_IPConn h w ip).
      destruct (h _ (sysfd_packetHandler ip) w) as [[fd [e1|]] w1].
      * repeat split. cbn. lia.
      * destruct (h _ (setIPv4HeaderPrepend fd true) w1) as [e2 w2].
        repeat split. cbn. lia.
    + rewrite (run_NewRawConn_other h w c Hc). repeat split. cbn. lia.
Qed.

(** X10.  Deadlines and Close look at the handler's connection only.  For
    SetDeadline, SetReadDeadline, SetWriteDeadline and Close, two PacketConns
    (or two RawConns) whose handlers hold the same connection return the same
    error, make the same OS call and leave the same world, whatever control
    flags each has recorded; and the receiver, its recorded flags included,
    is after the call what it was before. *)
Theorem deadlines_and_Close_ignore_control_flags :
  forall (W : Type) (h : handler W) (w : W) (m : method),
    is_M_SetControlMessage m = false ->
    (forall c1 c2 : PacketConn,
        payloadHandler_c (PacketConn_payloadHandler c1)
        = payloadHandler_c (PacketConn_payloadHandler c2) ->
        outward (run h (PacketConn_call m (Some c1)) w) =
        outward (run h (PacketConn_call m (Some c2)) w)) /\
    (forall c : PacketConn,
        exists e : error, result (run h (PacketConn_call m (Some c)) w) = Returned (c, e)) /\
    (forall c1 c2 : RawConn,
        packetHandler_c (RawConn_packetHandler c1)
        = packetHandler_c (RawConn_packetHandler c2) ->
        outward (run h (RawConn_call m (Some c1)) w) =
        outward (run h (RawConn_call m (Some c2)) w)) /\
    (forall c : RawConn,
        exists e : error, result (run h (RawConn_call m (Some c)) w) = Returned (c, e)).
Proof.
  intros W h w m Hm.
  assert (HP : forall c : PacketConn,
             exists e, result (run h (PacketConn_call m (Some c)) w) = Returned (c, e)).
  { intro c. destruct (PacketConn_cases c) as [Hok | [d Hd]].
    - exists EINVAL.
      destruct m; cbn [PacketConn_call];
        [ rewrite PacketConn_SetControlMessage_not_ready
        | rewrite PacketConn_SetDeadline_not_ready
        | rewrite PacketConn_SetReadDeadline_not_ready
        | rewrite PacketConn_SetWriteDeadline_not_ready
        | rewrite PacketConn_Close_not_ready ]; try exact Hok; reflexivity.
    - destruct m as [cf on | t | t | t | ]; [discriminate Hm | | | |];
        cbn [PacketConn_call];
        [ rewrite (PacketConn_SetDeadline_delegates W h w c d Hd)
        | rewrite (PacketConn_SetReadDeadline_delegates W h w c d Hd)
        | rewrite (PacketConn_SetWriteDeadline_delegates W h w c d Hd)
        | rewrite (PacketConn_Close_delegates W h w c d Hd) ];
        unfold delegated;
        match goal with |- context [h ?X ?e w] => destruct (h X e w) as [err w1] end;
        exists err; reflexivity. }
  assert (HR : forall c : RawConn,
             exists e, result (run h (RawConn_call m (Some c)) w) = Returned (c, e)).
  { intro c. destruct (RawConn_cases c) as [Hok | [n Hn]].
    - exists EINVAL.
      destruct m; cbn [RawConn_call];
        [ rewrite RawConn_SetControlMessage_not_ready
        | rewrite RawConn_SetDeadline_not_ready
        | rewrite RawConn_SetReadDeadline_not_ready
        | rewrite RawConn_SetWriteDeadline_not_ready
        | rewrite RawConn_Close_not_ready ]; try exact Hok; reflexivity.
    - destruct m as [cf on | t | t | t | ]; [discriminate Hm | | | |];
        cbn [RawConn_call];
        [ rewrite (RawConn_SetDeadline_delegates W h w c n Hn)
        | rewrite (RawConn_SetReadDeadline_delegates W h w c n Hn)
        | rewrite (RawConn_SetWriteDeadline_delegates W h w c n Hn)
        | rewrite (RawConn_Close_delegates W h w c n Hn) ];
        unfold delegated;
        match goal with |- context [h ?X ?e w] => destruct (h X e w) as [err w1] end;
        exists err; reflexivity. }
  repeat match goal with |- _ /\ _ => split end.
  - intros c1 c2 Hc.
    destruct (PacketConn_cases c1) as [Hok | [d Hd]].
    + assert (Hok2 : payloadHandler_ok (Some (PacketConn_payloadHandler c2)) = false).
      { cbn in Hok |- *. now rewrite <- Hc. }
      destruct m; cbn [PacketConn_call];
        [ rewrite !PacketConn_SetControlMessage_not_ready
        | rewrite !PacketConn_SetDeadline_not_ready
        | rewrite !PacketConn_SetReadDeadline_not_ready
        | rewrite !PacketConn_SetWriteDeadline_not_ready
        | rewrite !PacketConn_Close_not_ready ]; try assumption; reflexivity.
    + assert (Hd2 : payloadHandler_c (PacketConn_payloadHandler c2) = Some d)
        by now rewrite <- Hc.
      destruct m as [cf on | t | t | t | ]; [discriminate Hm | | | |];
        cbn [PacketConn_call];
        [ rewrite (PacketConn_SetDeadline_delegates W h w c1 d Hd),
                  (PacketConn_SetDeadline_delegates W h w c2 d Hd2)
        | rewrite (PacketConn_SetReadDeadline_delegates W h w c1 d Hd),
                  (PacketConn_SetReadDeadline_delegates W h w c2 d Hd2)
        | rewrite (PacketConn_SetWriteDeadline_delegates W h w c1 d Hd),
                  (PacketConn_SetWriteDeadline_delegates W h w c2 d Hd2)
        | rewrite (PacketConn_Close_delegates W h w c1 d Hd),
                  (PacketConn_Close_delegates W h w c2 d Hd2) ];
        unfold outward, delegated;
        match goal with |- context [h ?X ?e w] => destruct (h X e w) as [err w1] end;
        reflexivity.
  - exact HP.
  - intros c1 c2 Hc.
    destruct (RawConn_cases c1) as [Hok | [n Hn]].
    + assert (Hok2 : packetHandler_ok (Some (RawConn_packetHandler c2)) = false).
      { cbn in Hok |- *. now rewrite <- Hc. }
      destruct m; cbn [RawConn_call];
        [ rewrite !RawConn_SetControlMessage_not_ready
        | rewrite !RawConn_SetDeadline_not_ready
        | rewrite !RawConn_SetReadDeadline_not_ready
        | rewrite !RawConn_SetWriteDeadline_not_ready
        | rewrite !RawConn_Close_not_ready ]; try assumption; reflexivity.
    + assert (Hn2 : packetHandler_c (RawConn_packetHandler c2) = Some n)
        by now rewrite <- Hc.
      destruct m as [cf on | t | t | t | ]; [discriminate Hm | | | |];
        cbn [RawConn_call];
        [ rewrite (RawConn_SetDeadline_delegates W h w c1 n Hn),
                  (RawConn_SetDeadline_delegates W h w c2 n Hn2)
        | rewrite (RawConn_SetReadDeadline_delegates W h w c1 n Hn),
                  (RawConn_SetReadDeadline_delegates W h w c2 n Hn2)
        | rewrite (RawConn_SetWriteDeadline_delegates W h w c1 n Hn),
                  (RawConn_SetWriteDeadline_delegates W h w c2 n Hn2)
        | rewrite (RawConn_Close_delegates W h w c1 n Hn),
                  (RawConn_Close_delegates W h w c2 n Hn2) ];
        unfold outward, delegated;
        match goal with |- context [h ?X ?e w] => destruct (h X e w) as [err w1] end;
        reflexivity.
  - exact HR.
Qed.

Lemma deadlines_and_Close_ignore_control_flags_witness :
  outward (run mock (PacketConn_call (M_SetDeadline 4) (Some udp1_with_6)) fresh) =
  outward (run mock (PacketConn_call (M_SetDeadline 4) (Some udp1_mixed)) fresh) /\
  exists e : error,
    result (run mock (PacketConn_call (M_SetDeadline 4) (Some udp1_with_6)) fresh)
    = Returned (udp1_with_6, e).
Proof.
  destruct (deadlines_and_Close_ignore_control_flags mockOS mock fresh (M_SetDeadline 4)
              eq_refl) as (H1 & H2 & _).
  split; [exact (H1 udp1_with_6 udp1_mixed eq_refl) | exact (H2 udp1_with_6)].
Defined.
